(** * lac.vector: Euclidean vectors over binary64

    A shallow embedding of [src/lac/vector.py].  Components are IEEE 754
    binary64 values ([spec_float] at precision 53, [emax] 1024), Python
    exceptions are an explicit error result, and the lazily cached norm is
    threaded as state: a read of [norm] returns the value together with
    the instance as the read leaves it.

    The builtins the module calls ([array], [math.fsum], [math.sqrt],
    [round], [zip], [all], [isinstance]) are written out after CPython.
    [make_random], which draws from [random], stays outside, and
    [angle_between] takes the arc cosine of the C library as a function on
    doubles; subscripts are integers, slices are left out. *)

From Stdlib Require Import ZArith List String Ascii Bool Lia.
From Stdlib Require Import Floats.SpecFloat.
Import ListNotations.

Local Open Scope string_scope.
Local Open Scope list_scope.
Local Open Scope Z_scope.

(** ** Exceptions and the error monad *)

Inductive exn : Set :=
  | AttributeError
  | IndexError
  | OverflowError
  | TypeError
  | ValueError
  | ZeroDivisionError.

Inductive result (A : Type) : Type :=
  | Ok (a : A)
  | Raise (e : exn).

Arguments Ok {A} a.
Arguments Raise {A} e.

Definition bind {A B} (r : result A) (k : A -> result B) : result B :=
  match r with
  | Ok a => k a
  | Raise e => Raise e
  end.

Notation "x <- r ;; k" := (bind r (fun x => k))
  (at level 61, r at next level, right associativity).
Notation "' p <- r ;; k" := (bind r (fun p => k))
  (at level 61, p pattern, r at next level, right associativity).

(** [[f(x) for x in xs]] consumed item by item: the first failure stops it. *)
Fixpoint mapM {A B} (f : A -> result B) (xs : list A) : result (list B) :=
  match xs with
  | [] => Ok []
  | x :: xs' => y <- f x ;; ys <- mapM f xs' ;; Ok (y :: ys)
  end.

(** [zip]: stops with the shorter operand. *)
Definition zip {A B} (xs : list A) (ys : list B) : list (A * B) := combine xs ys.

(** ** binary64

    A NaN is one datum here: [spec_float] keeps neither the sign nor the
    payload of a NaN, which an operation takes from its operands in a way
    that depends on the hardware.  Equality of two floats of the model is
    therefore equality of the bits for every double that is not a NaN, and
    says no more than "both are NaN" for the others. *)

Definition float : Set := spec_float.

Module F64.

Definition prec : Z := 53.
Definition emax : Z := 1024.

Definition mul : float -> float -> float := SFmul prec emax.
Definition add : float -> float -> float := SFadd prec emax.
Definition sub : float -> float -> float := SFsub prec emax.
Definition div : float -> float -> float := SFdiv prec emax.
Definition sqrt : float -> float := SFsqrt prec emax.
Definition abs : float -> float := SFabs.
Definition eqb : float -> float -> bool := SFeqb.
Definition ltb : float -> float -> bool := SFltb.

Definition zero : float := S754_zero false.
Definition nan : float := S754_nan.
Definition inf : float := S754_infinity false.

(** The double nearest to the integer [z] (ties to even); infinite when
    [z] is out of range. *)
Definition of_Z (z : Z) : float := binary_normalize prec emax z 0 false.

(** The double nearest to [p / q], for positive [p] and [q], with sign [s]. *)
Definition of_ratio (s : bool) (p q : positive) : float :=
  SFdiv prec emax (S754_finite s p 0) (S754_finite false q 0).

Definition is_nan (x : float) : bool :=
  match x with S754_nan => true | _ => false end.

Definition is_inf (x : float) : bool :=
  match x with S754_infinity _ => true | _ => false end.

Definition is_finite (x : float) : bool :=
  match x with S754_zero _ | S754_finite _ _ _ => true | _ => false end.

(** The same datum, bit for bit. *)
Definition same (x y : float) : bool :=
  match x, y with
  | S754_zero s, S754_zero t => Bool.eqb s t
  | S754_infinity s, S754_infinity t => Bool.eqb s t
  | S754_nan, S754_nan => true
  | S754_finite s m e, S754_finite t n f =>
      Bool.eqb s t && Pos.eqb m n && Z.eqb e f
  | _, _ => false
  end.

(** [x == z] for a double and an unbounded integer: the comparison is on
    the exact values. *)
Definition eqb_Z (x : float) (z : Z) : bool :=
  match x with
  | S754_zero _ => z =? 0
  | S754_finite s m e =>
      let sm := if s then Z.neg m else Z.pos m in
      if 0 <=? e then sm * 2 ^ e =? z else sm =? z * 2 ^ (- e)
  | _ => false
  end.

End F64.

(** ** Objects

    A [Vector] instance holds the two fields [__init__] sets: the array of
    doubles and the norm cache, [None] until the first read of [norm]. *)

Record Vector : Set := mkVector {
  _components : list float;
  _norm : option float
}.

(** The Python values that reach the module's functions as arguments:
    numbers, [None], text, lists, Vectors, and the bound methods attribute
    access on a Vector yields.  The numbers are [int], [float] and
    [complex]; [bool], [Fraction], [Decimal] and the classes a program
    registers as [Number] are not among the values, and no statement below
    is about them. *)
#[warnings="-register-all"]
Inductive value : Set :=
  | VNone
  | VInt (z : Z)
  | VFloat (f : float)
  | VComplex (re im : float)
  | VStr (s : string)
  | VList (items : list value)
  | VArray (items : list float)
  | VVector (v : Vector)
  | VMethod (self : Vector) (name : string).

Coercion VVector : Vector >-> value.

(** [isinstance(k, Number)]: [int], [float] and [complex] are registered
    with [numbers.Number]. *)
Definition isinstance_Number (k : value) : bool :=
  match k with
  | VInt _ | VFloat _ | VComplex _ _ => true
  | _ => false
  end.

(** Conversion of an array item to a C double (typecode ["d"]): a [float]
    is taken as it is, an [int] is rounded to the nearest double and must be
    in range, everything else is refused. *)
Definition to_double (x : value) : result float :=
  match x with
  | VFloat f => Ok f
  | VInt z =>
      let f := F64.of_Z z in
      if F64.is_inf f then Raise OverflowError else Ok f
  | _ => Raise TypeError
  end.

(** [k * c] for a component [c] of the array: [float.__rmul__] converts an
    [int], complex arithmetic promotes [c] to [c + 0j], other operands do
    not multiply with a [float]. *)
Definition py_mul (k : value) (c : float) : result value :=
  match k with
  | VInt _ => f <- to_double k ;; Ok (VFloat (F64.mul f c))
  | VFloat f => Ok (VFloat (F64.mul f c))
  | VComplex re im =>
      Ok (VComplex (F64.sub (F64.mul re c) (F64.mul im F64.zero))
                   (F64.add (F64.mul re F64.zero) (F64.mul im c)))
  | _ => Raise TypeError
  end.

(** [array("d", items)]: the items are produced and converted one by one,
    so the first item that fails to evaluate or to convert ends the
    construction. *)
Fixpoint array_d (items : list (result value)) : result (list float) :=
  match items with
  | [] => Ok []
  | item :: rest =>
      x <- item ;; c <- to_double x ;; cs <- array_d rest ;; Ok (c :: cs)
  end.

(** ** math.sqrt, math.fsum and true division *)

(** [math.sqrt]: a NaN result from a non-NaN argument is a domain error. *)
Definition math_sqrt (x : float) : result float :=
  let r := F64.sqrt x in
  if F64.is_nan r && negb (F64.is_nan x) then Raise ValueError else Ok r.

(** [a / b] on floats. *)
Definition truediv (a b : float) : result float :=
  if F64.eqb b F64.zero then Raise ZeroDivisionError else Ok (F64.div a b).

(** [math.fsum] keeps a list of non-overlapping partial sums
    (Shewchuk's algorithm).  [fsum_partials x ps] adds [x] into the
    partials [ps], lowest first: the rounding error of each addition stays
    in the list, the running sum moves on. *)
Fixpoint fsum_partials (x : float) (ps : list float) : list float * float :=
  match ps with
  | [] => ([], x)
  | y :: ps' =>
      let '(x, y) := if F64.ltb (F64.abs x) (F64.abs y) then (y, x) else (x, y) in
      let hi := F64.add x y in
      let yr := F64.sub hi x in
      let lo := F64.sub y yr in
      let '(out, top) := fsum_partials hi ps' in
      (if F64.eqb lo F64.zero then out else lo :: out, top)
  end.

Record fsum_state : Set := mkFsum {
  partials : list float;
  special_sum : float;
  inf_sum : float
}.

Definition fsum_init : fsum_state := mkFsum [] F64.zero F64.zero.

(** One summand.  A non-finite running sum is an intermediate overflow when
    the summand was finite; otherwise the summand is an infinity or a NaN,
    which is accumulated apart and resets the partials. *)
Definition fsum_add (st : fsum_state) (x : float) : result fsum_state :=
  let xsave := x in
  let '(ps, x) := fsum_partials x (partials st) in
  if negb (F64.eqb x F64.zero) then
    if negb (F64.is_finite x) then
      if F64.is_finite xsave then Raise OverflowError
      else Ok (mkFsum []
                 (F64.add (special_sum st) xsave)
                 (if F64.is_inf xsave then F64.add (inf_sum st) xsave
                  else inf_sum st))
    else Ok (mkFsum (ps ++ [x]) (special_sum st) (inf_sum st))
  else Ok (mkFsum ps (special_sum st) (inf_sum st)).

Fixpoint fsum_loop (st : fsum_state) (xs : list float) : result fsum_state :=
  match xs with
  | [] => Ok st
  | x :: xs' => st' <- fsum_add st x ;; fsum_loop st' xs'
  end.

(** Summation of the partials from the top, stopping at the first inexact
    addition; [rps] is the rest of the partials, highest first.  The
    result is the sum, the last rounding error and the partials left. *)
Fixpoint fsum_exact (hi lo : float) (rps : list float)
  : float * float * list float :=
  match rps with
  | [] => (hi, lo, [])
  | y :: rest =>
      let x := hi in
      let hi := F64.add x y in
      let yr := F64.sub hi x in
      let lo := F64.sub y yr in
      if negb (F64.eqb lo F64.zero) then (hi, lo, rest)
      else fsum_exact hi lo rest
  end.

Definition two : float := F64.of_Z 2.

(** The final sum, with the half-even correction across partials. *)
Definition fsum_finish (ps : list float) : float :=
  match rev ps with
  | [] => F64.zero
  | top :: rps =>
      let '(hi, lo, rest) := fsum_exact top F64.zero rps in
      match rest with
      | p :: _ =>
          if (F64.ltb lo F64.zero && F64.ltb p F64.zero)
             || (F64.ltb F64.zero lo && F64.ltb F64.zero p)
          then
            let y := F64.mul lo two in
            let x := F64.add hi y in
            let yr := F64.sub x hi in
            if F64.eqb y yr then x else hi
          else hi
      | [] => hi
      end
  end.

Definition math_fsum (xs : list float) : result float :=
  st <- fsum_loop fsum_init xs ;;
  if negb (F64.eqb (special_sum st) F64.zero) then
    if F64.is_nan (inf_sum st) then Raise ValueError
    else Ok (special_sum st)
  else Ok (fsum_finish (partials st)).

(** ** round

    [round(x, ndigits)] on a float is decimal rounding of the exact binary
    value, ties to even, converted back to the nearest double. *)

(** The integer nearest to [p / q] for [0 < q], ties to the even one. *)
Definition round_half_even (p q : Z) : Z :=
  let '(d, r) := Z.div_eucl p q in
  match 2 * r ?= q with
  | Lt => d
  | Gt => d + 1
  | Eq => if Z.even d then d else d + 1
  end.

Definition NDIGITS_MAX : Z := 323.
Definition NDIGITS_MIN : Z := -308.

(** A finite nonzero [x = (-1)^s * m * 2^e] and [ndigits] within the two
    bounds: round [|x| * 10^ndigits] to an integer [q], then take the double
    nearest to [q / 10^ndigits].  A result out of range is an overflow. *)
Definition double_round (s : bool) (m : positive) (e ndigits : Z) : result float :=
  let num := Z.pos m * (if 0 <=? e then 2 ^ e else 1)
                     * (if 0 <=? ndigits then 10 ^ ndigits else 1) in
  let den := (if 0 <=? e then 1 else 2 ^ (- e))
             * (if 0 <=? ndigits then 1 else 10 ^ (- ndigits)) in
  match round_half_even num den with
  | Z.pos q =>
      let r := if 0 <=? ndigits
               then F64.of_ratio s q (Z.to_pos (10 ^ ndigits))
               else F64.of_Z (cond_Zopp s (Z.pos q * 10 ^ (- ndigits))) in
      if F64.is_inf r then Raise OverflowError else Ok r
  | _ => Ok (S754_zero s)
  end.

Definition float_round (x : float) (ndigits : Z) : result float :=
  match x with
  | S754_finite s m e =>
      if NDIGITS_MAX <? ndigits then Ok x
      else if ndigits <? NDIGITS_MIN then Ok (F64.mul F64.zero x)
      else double_round s m e ndigits
  | _ => Ok x
  end.

(** [round(x, ndigits)] for an integer count [ndigits]: an [int] stays an
    [int]; types without [__round__] are refused. *)
Definition py_round (x : value) (ndigits : Z) : result value :=
  match x with
  | VFloat f => r <- float_round f ndigits ;; Ok (VFloat r)
  | VInt z =>
      Ok (VInt (if 0 <=? ndigits then z
                else round_half_even z (10 ^ (- ndigits)) * 10 ^ (- ndigits)))
  | _ => Raise TypeError
  end.

(** [a == b] on the numbers [round] returns; a float and an int compare by
    exact value. *)
Definition num_eq (a b : value) : bool :=
  match a, b with
  | VFloat x, VFloat y => F64.eqb x y
  | VFloat x, VInt z | VInt z, VFloat x => F64.eqb_Z x z
  | VInt x, VInt y => x =? y
  | _, _ => false
  end.

(** ** class Vector *)

Definition components (self : Vector) : list float := _components self.

Definition dim (self : Vector) : Z := Z.of_nat (List.length (components self)).

(** [Vector(components)]: the argument is an iterable of items, each the
    outcome of evaluating one element. *)
Definition Vector_init (items : list (result value)) : result Vector :=
  cs <- array_d items ;; Ok (mkVector cs None).

(** [o.dim] on an argument: of the modelled objects only a Vector has it. *)
Definition dim_of (o : value) : result Z :=
  match o with
  | VVector v => Ok (dim v)
  | _ => Raise AttributeError
  end.

(** [iter(o)]: a Vector iterates over its array, text over its characters. *)
Definition py_iter (o : value) : result (list value) :=
  match o with
  | VVector v => Ok (map VFloat (components v))
  | VArray a => Ok (map VFloat a)
  | VList l => Ok l
  | VStr s => Ok (map (fun c => VStr (String c EmptyString)) (list_ascii_of_string s))
  | _ => Raise TypeError
  end.

Definition dot (v1 : Vector) (v2 : value) : result float :=
  match v2 with
  | VVector u =>
      if negb (dim v1 =? dim u) then Raise ValueError
      else math_fsum (map (fun '(c1, c2) => F64.mul c1 c2)
                          (zip (components v1) (components u)))
  | _ => Raise AttributeError
  end.

(** The [norm] property: the value and the instance after the read. *)
Definition norm (self : Vector) : result (float * Vector) :=
  match _norm self with
  | None =>
      d <- dot self self ;;
      n <- math_sqrt d ;;
      Ok (n, mkVector (_components self) (Some n))
  | Some n => Ok (n, self)
  end.

Definition scale (v : Vector) (k : value) : result Vector :=
  if negb (isinstance_Number k) then Raise TypeError
  else Vector_init (map (fun c => py_mul k c) (components v)).

Definition add (v1 v2 : Vector) : result Vector :=
  if negb (dim v1 =? dim v2) then Raise ValueError
  else Vector_init (map (fun '(c1, c2) => Ok (VFloat (F64.add c1 c2)))
                        (zip (components v1) (components v2))).

Definition subtract (v1 v2 : Vector) : result Vector :=
  s <- scale v2 (VInt (-1)) ;; add v1 s.

(** [self.components[i]] for an integer subscript [i]: a negative one
    counts from the end. *)
Definition Vector___getitem__ (self : Vector) (i : Z) : result float :=
  let i := if i <? 0 then i + dim self else i in
  if (i <? 0) || (dim self <=? i) then Raise IndexError
  else match nth_error (components self) (Z.to_nat i) with
       | Some c => Ok c
       | None => Raise IndexError
       end.

Definition Vector___rmul__ (self : Vector) (k : value) : result Vector :=
  scale self k.

Definition Vector___neg__ (self : Vector) : result Vector :=
  Vector___rmul__ self (VInt (-1)).

Definition Vector___add__ (self other : Vector) : result Vector :=
  add self other.

Definition Vector___sub__ (self other : Vector) : result Vector :=
  n <- Vector___neg__ other ;; Vector___add__ self n.

Definition Vector___matmul__ (self : Vector) (other : value) : result float :=
  dot self other.

Definition Vector___abs__ (self : Vector) : result (float * Vector) :=
  norm self.

Definition Vector___len__ (self : Vector) : Z := dim self.

(** [[0] * dim]: as many zeros as [dim] says, none for a negative [dim].
    Lists are unbounded here: the limits a machine puts on a length, the
    width of an index and the memory, are not part of the model. *)
Definition make_zero (n : Z) : result Vector :=
  Vector_init (repeat (Ok (VInt 0)) (Z.to_nat n)).

Definition one : float := F64.of_Z 1.

Definition build_unit_vector (v : Vector) : result Vector :=
  '(n, v) <- norm v ;;
  k <- truediv one n ;;
  scale v (VFloat k).

Definition make_unitary (components : list value) : result Vector :=
  v <- Vector_init (map Ok components) ;; build_unit_vector v.

(** [all(round(c1, ndigits) == round(c2, ndigits) for c1, c2 in pairs)]:
    the scan ends at the first unequal pair. *)
Fixpoint all_rounded_equal (ndigits : Z) (pairs : list (float * value))
  : result bool :=
  match pairs with
  | [] => Ok true
  | (c1, c2) :: rest =>
      r1 <- py_round (VFloat c1) ndigits ;;
      r2 <- py_round c2 ndigits ;;
      if num_eq r1 r2 then all_rounded_equal ndigits rest else Ok false
  end.

Definition almost_equal (v1 : Vector) (v2 : value) (ndigits : Z) : result bool :=
  items <- py_iter v2 ;;
  close <- all_rounded_equal ndigits (zip (components v1) items) ;;
  if close then d2 <- dim_of v2 ;; Ok (dim v1 =? d2) else Ok false.

(** ** What the module takes from outside

    [PRECISION] is imported from the package [lac], whose [__init__] is not
    among the sources at hand: it is the integer count of decimal digits
    that [almost_equal] rounds to by default.  [float_repr] is the text
    [repr] gives for a float. *)
Class Env : Type := {
  PRECISION : Z;
  float_repr : float -> string
}.

Definition Vector___eq__ {E : Env} (self : Vector) (other : value) : result bool :=
  almost_equal self other PRECISION.

(** [reprlib.repr] of a list: six items at most, a longer text of an item
    cut down to thirty characters. *)
Definition reprlib_item (s : string) : string :=
  let n := String.length s in
  if Nat.ltb 30 n
  then (substring 0 13 s ++ "..." ++ substring (n - 14) 14 s)%string
  else s.

Definition reprlib_list (items : list string) : string :=
  let shown := firstn 6 items ++ (if Nat.ltb 6 (List.length items) then ["..."] else []) in
  ("[" ++ String.concat ", " shown ++ "]")%string.

Definition Vector___repr__ {E : Env} (self : Vector) : result string :=
  rounded <- mapM (fun c => float_round c 3) (components self) ;;
  Ok ("Vector("
      ++ reprlib_list (map (fun c => reprlib_item (float_repr c)) rounded)
      ++ ")")%string.

(** *** Attribute access

    The names a Vector instance answers to are those bound in the class
    body and the two fields of [__init__]; any other name raises
    [AttributeError], the class having no [__getattr__]. *)
Definition Vector_methods : list string :=
  ["make_random"; "make_zero"; "make_unitary"; "__init__"; "__iter__";
   "__getitem__"; "__matmul__"; "__add__"; "__rmul__"; "__neg__"; "__sub__";
   "__abs__"; "__len__"; "__eq__"; "__repr__"].

Definition Vector_getattr (self : Vector) (name : string) : result value :=
  if (name =? "typecode")%string then Ok (VStr "d")
  else if (name =? "_components")%string || (name =? "components")%string
  then Ok (VArray (components self))
  else if (name =? "_norm")%string
  then Ok (match _norm self with None => VNone | Some n => VFloat n end)
  else if (name =? "norm")%string
  then '(n, _) <- norm self ;; Ok (VFloat n)
  else if (name =? "dim")%string then Ok (VInt (dim self))
  else if existsb (String.eqb name) Vector_methods then Ok (VMethod self name)
  else Raise AttributeError.

(** [f()]: a call without arguments.  Of the bound methods, those that take
    more than [self] miss an argument; other objects are not callable. *)
Definition call0 {E : Env} (f : value) : result value :=
  match f with
  | VMethod self name =>
      if (name =? "__iter__")%string then Ok (VArray (components self))
      else if (name =? "__neg__")%string
      then v <- Vector___neg__ self ;; Ok (VVector v)
      else if (name =? "__abs__")%string
      then '(n, _) <- Vector___abs__ self ;; Ok (VFloat n)
      else if (name =? "__len__")%string then Ok (VInt (Vector___len__ self))
      else if (name =? "__repr__")%string
      then s <- Vector___repr__ self ;; Ok (VStr s)
      else Raise TypeError
  | _ => Raise TypeError
  end.

(** [a != n] for an integer literal [n]: numbers compare by value, a Vector
    answers through [__eq__], which cannot iterate over an [int], and any
    other object differs from a number. *)
Definition py_ne_int (a : value) (n : Z) : result bool :=
  match a with
  | VInt z => Ok (negb (z =? n))
  | VFloat f => Ok (negb (F64.eqb_Z f n))
  | VComplex re im => Ok (negb (F64.eqb_Z re n && F64.eqb_Z im 0))
  | VVector _ => Raise TypeError
  | _ => Ok true
  end.

(** ** The free functions on the missing attributes *)

(** One turn of the loop [for v in [v1, v2]] of [cross]. *)
Definition cross_check (v : Vector) : result unit :=
  nd <- Vector_getattr v "ndim" ;;
  differs <- py_ne_int nd 3 ;;
  if differs then (_ <- Vector_getattr v "ndim" ;; Raise ValueError)
  else Ok tt.

(** The three assignments of [cross] and its [return]. *)
Definition cross_components (v1 v2 : Vector) : result Vector :=
  a1 <- Vector___getitem__ v1 1 ;; b2 <- Vector___getitem__ v2 2 ;;
  a2 <- Vector___getitem__ v1 2 ;; b1 <- Vector___getitem__ v2 1 ;;
  let c1 := F64.sub (F64.mul a1 b2) (F64.mul a2 b1) in
  a2 <- Vector___getitem__ v1 2 ;; b0 <- Vector___getitem__ v2 0 ;;
  a2' <- Vector___getitem__ v1 2 ;; b0' <- Vector___getitem__ v2 0 ;;
  let c2 := F64.sub (F64.mul a2 b0) (F64.mul a2' b0') in
  a0 <- Vector___getitem__ v1 0 ;; b1 <- Vector___getitem__ v2 1 ;;
  a1 <- Vector___getitem__ v1 1 ;; b0 <- Vector___getitem__ v2 0 ;;
  let c3 := F64.sub (F64.mul a0 b1) (F64.mul a1 b0) in
  Vector_init [Ok (VFloat c1); Ok (VFloat c2); Ok (VFloat c3)].

Definition cross (v1 v2 : Vector) : result Vector :=
  _ <- cross_check v1 ;;
  _ <- cross_check v2 ;;
  cross_components v1 v2.

Definition project {E : Env} (v d : Vector) : result float :=
  m <- Vector_getattr d "buil_unitary" ;;
  u <- call0 m ;;
  dot v u.

(** * Properties *)

(** ** Constants and sample vectors *)

Definition fl (z : Z) : float := F64.of_Z z.

(** [Vector(cs)] for components that are already doubles, cache empty. *)
Definition vec (cs : list float) : Vector := mkVector cs None.

(** An environment with a given precision, for closed examples. *)
Definition env (precision : Z) : Env :=
  {| PRECISION := precision; float_repr := fun _ => EmptyString |}.

(** ** Helper lemmas *)

Lemma dim_nonneg (v : Vector) : 0 <= dim v.
Proof. unfold dim. lia. Qed.

Lemma dim_vec (cs : list float) : dim (vec cs) = Z.of_nat (List.length cs).
Proof. reflexivity. Qed.

Lemma nth_error_in_range {A} (l : list A) (j : Z) :
  0 <= j < Z.of_nat (List.length l) ->
  exists c, nth_error l (Z.to_nat j) = Some c.
Proof.
  intros H.
  destruct (nth_error l (Z.to_nat j)) as [c|] eqn:E; [eauto|].
  apply nth_error_None in E. lia.
Qed.

(** ** cross and project *)

(** C1: [cross] reads the attribute [ndim] of its operands, which a Vector
    does not have (the dimension is [dim]): every call ends in
    [AttributeError], whatever the dimensions, so neither the cross product
    nor the dimension error of the claim is ever produced. *)
Theorem cross_raises_AttributeError :
  forall v1 v2 : Vector, cross v1 v2 = Raise AttributeError.
Proof. intros v1 v2. reflexivity. Qed.

(** The assignments behind the dimension test: right on the claim's
    example, but the middle component subtracts a product from itself. *)
Lemma cross_components_e1_e2 :
  cross_components (vec [fl 1; fl 0; fl 0]) (vec [fl 0; fl 1; fl 0])
  = Ok (vec [fl 0; fl 0; fl 1]).
Proof. vm_compute. reflexivity. Qed.

Lemma cross_components_e1_e3 :
  cross_components (vec [fl 1; fl 0; fl 0]) (vec [fl 0; fl 0; fl 1])
  = Ok (vec [fl 0; fl 0; fl 0]).
Proof. vm_compute. reflexivity. Qed.

(** C2: [project] calls [d.buil_unitary()], a name the class does not
    bind: every call ends in [AttributeError] before [dot] is reached. *)
Theorem project_raises_AttributeError :
  forall (E : Env) (v d : Vector), project v d = Raise AttributeError.
Proof. intros E v d. reflexivity. Qed.

(** ** Indexing *)

(** The claim as stated: [v[i]] returns exactly for [i] in [[0, dim)]. *)
Definition getitem_only_in_range (v : Vector) (i : Z) : Prop :=
  (exists c, Vector___getitem__ v i = Ok c) <-> 0 <= i < dim v.

Lemma getitem_minus_one_succeeds :
  ~ getitem_only_in_range (vec [fl 1; fl 2]) (-1).
Proof.
  intros [H _].
  assert (Hc : exists c, Vector___getitem__ (vec [fl 1; fl 2]) (-1) = Ok c)
    by (exists (fl 2); reflexivity).
  apply H in Hc. lia.
Qed.

(** C3, amended: [v[i]] returns component [i] for [0 <= i < dim],
    component [dim + i] for [-dim <= i < 0], and raises [IndexError] for
    every other integer. *)
Theorem getitem_spec :
  forall (v : Vector) (i : Z),
    (0 <= i < dim v ->
     exists c, nth_error (components v) (Z.to_nat i) = Some c
               /\ Vector___getitem__ v i = Ok c)
    /\ (- dim v <= i < 0 ->
        exists c, nth_error (components v) (Z.to_nat (dim v + i)) = Some c
                  /\ Vector___getitem__ v i = Ok c)
    /\ (i < - dim v \/ dim v <= i -> Vector___getitem__ v i = Raise IndexError).
Proof.
  intros v i. pose proof (dim_nonneg v) as Hd.
  unfold Vector___getitem__; cbv zeta. repeat split.
  - intros H.
    destruct (@nth_error_in_range _ (components v) i H) as [c Hc].
    exists c. split; [exact Hc|].
    destruct (Z.ltb_spec i 0); [lia|].
    destruct (Z.ltb_spec i 0); [lia|].
    destruct (Z.leb_spec (dim v) i); [lia|].
    simpl. rewrite Hc. reflexivity.
  - intros H.
    assert (H' : 0 <= dim v + i < Z.of_nat (List.length (components v)))
      by (unfold dim in *; lia).
    destruct (@nth_error_in_range _ (components v) (dim v + i) H') as [c Hc].
    exists c. split; [exact Hc|].
    destruct (Z.ltb_spec i 0); [|lia].
    destruct (Z.ltb_spec (i + dim v) 0); [lia|].
    destruct (Z.leb_spec (dim v) (i + dim v)); [lia|].
    simpl. rewrite (Z.add_comm i). rewrite Hc. reflexivity.
  - intros [H|H].
    + destruct (Z.ltb_spec i 0); [|lia].
      destruct (Z.ltb_spec (i + dim v) 0); [|lia].
      reflexivity.
    + destruct (Z.ltb_spec i 0); [lia|].
      destruct (Z.ltb_spec i 0); [lia|].
      destruct (Z.leb_spec (dim v) i); [|lia].
      reflexivity.
Qed.

Lemma getitem_spec_witness :
  - dim (vec [fl 1; fl 2]) <= -1 < 0
  /\ Vector___getitem__ (vec [fl 1; fl 2]) (-1) = Ok (fl 2).
Proof.
  assert (H : - dim (vec [fl 1; fl 2]) <= -1 < 0) by (vm_compute; split; [discriminate | reflexivity]).
  split; [exact H|].
  destruct (proj1 (proj2 (getitem_spec (vec [fl 1; fl 2]) (-1))) H) as [c [Hc Hg]].
  rewrite Hg. vm_compute in Hc. injection Hc as <-. reflexivity.
Defined.

(** ** add *)

(** The component-wise sum of two arrays. *)
Definition sums (xs ys : list float) : list float :=
  map (fun '(c1, c2) => F64.add c1 c2) (zip xs ys).

Lemma sums_length (xs ys : list float) :
  List.length xs = List.length ys -> List.length (sums xs ys) = List.length xs.
Proof.
  intros H. unfold sums, zip. rewrite length_map, length_combine. lia.
Qed.

Lemma array_d_sums (ps : list (float * float)) :
  array_d (map (fun '(c1, c2) => Ok (VFloat (F64.add c1 c2))) ps)
  = Ok (map (fun '(c1, c2) => F64.add c1 c2) ps).
Proof.
  induction ps as [|[c1 c2] ps IH]; simpl; [reflexivity|].
  rewrite IH. reflexivity.
Qed.

Lemma add_equal_dim (v1 v2 : Vector) :
  dim v1 = dim v2 ->
  add v1 v2 = Ok (vec (sums (components v1) (components v2))).
Proof.
  intros H. unfold add. rewrite H, Z.eqb_refl. simpl.
  unfold Vector_init. rewrite array_d_sums. reflexivity.
Qed.

Lemma add_dim_mismatch (v1 v2 : Vector) :
  dim v1 <> dim v2 -> add v1 v2 = Raise ValueError.
Proof.
  intros H. unfold add.
  destruct (Z.eqb_spec (dim v1) (dim v2)); [contradiction | reflexivity].
Qed.

(** C8: [add] returns the component-wise sum, as a new Vector of the same
    dimension, when the dimensions agree; it raises the dimension error
    ([ValueError]) exactly when they differ, and that test comes first:
    on a mismatch the outcome is the error alone, and no other error can
    come out of [add].  [add(Vector([1,2]), Vector([1,2,3]))] raises it. *)
Theorem add_spec :
  forall v1 v2 : Vector,
    (dim v1 = dim v2 ->
     exists u, add v1 v2 = Ok u
               /\ components u = sums (components v1) (components v2)
               /\ dim u = dim v1)
    /\ (dim v1 <> dim v2 <-> add v1 v2 = Raise ValueError)
    /\ (forall e, add v1 v2 = Raise e -> e = ValueError)
    /\ (exists a b,
          Vector_init [Ok (VInt 1); Ok (VInt 2)] = Ok a
          /\ Vector_init [Ok (VInt 1); Ok (VInt 2); Ok (VInt 3)] = Ok b
          /\ add a b = Raise ValueError).
Proof.
  intros v1 v2. repeat split.
  - intros H. exists (vec (sums (components v1) (components v2))).
    split; [apply add_equal_dim; exact H|]. split; [reflexivity|].
    rewrite dim_vec, sums_length; [reflexivity|].
    unfold dim in H. lia.
  - apply add_dim_mismatch.
  - intros H Heq. rewrite (add_equal_dim _ _ Heq) in H. discriminate.
  - intros e H. destruct (Z.eq_dec (dim v1) (dim v2)) as [Heq|Hne].
    + rewrite (add_equal_dim _ _ Heq) in H. discriminate.
    + rewrite (add_dim_mismatch _ _ Hne) in H. congruence.
  - exists (vec [fl 1; fl 2]), (vec [fl 1; fl 2; fl 3]).
    repeat split; reflexivity.
Qed.

Lemma add_spec_witness :
  exists u, add (vec [fl 1; fl 2]) (vec [fl 3; fl 4]) = Ok u
            /\ components u = [fl 4; fl 6].
Proof.
  assert (H : dim (vec [fl 1; fl 2]) = dim (vec [fl 3; fl 4])) by reflexivity.
  destruct (proj1 (add_spec (vec [fl 1; fl 2]) (vec [fl 3; fl 4])) H)
    as [u [Hu [Hc _]]].
  exists u. split; [exact Hu|]. rewrite Hc. vm_compute. reflexivity.
Defined.

(** ** scale *)

Definition is_complex (k : value) : bool :=
  match k with VComplex _ _ => true | _ => false end.

Lemma to_double_cases (z : Z) :
  to_double (VInt z) = Ok (F64.of_Z z)
  \/ to_double (VInt z) = Raise OverflowError.
Proof.
  unfold to_double. destruct (F64.is_inf (F64.of_Z z)); [right | left]; reflexivity.
Qed.

Lemma to_double_Number (k : value) (f : float) :
  to_double k = Ok f -> isinstance_Number k = true.
Proof. destruct k; simpl; intros H; try discriminate; reflexivity. Qed.

Lemma array_d_products (k : value) (f : float) (cs : list float) :
  (forall c, py_mul k c = Ok (VFloat (F64.mul f c))) ->
  array_d (map (fun c => py_mul k c) cs) = Ok (map (F64.mul f) cs).
Proof.
  intros Hk. induction cs as [|c cs IH]; simpl; [reflexivity|].
  rewrite Hk. simpl. rewrite IH. reflexivity.
Qed.

Lemma array_d_first_fails (k : value) (e : exn) (c : float) (cs : list float) :
  (x <- py_mul k c ;; to_double x) = Raise e ->
  array_d (map (fun c => py_mul k c) (c :: cs)) = Raise e.
Proof.
  simpl. destruct (py_mul k c) as [x|e']; simpl.
  - intros ->. reflexivity.
  - intros H. injection H as ->. reflexivity.
Qed.

Lemma scale_real (v : Vector) (k : value) (f : float) :
  to_double k = Ok f ->
  scale v k = Ok (vec (map (F64.mul f) (components v))).
Proof.
  intros Hk. unfold scale. rewrite (to_double_Number _ _ Hk). simpl.
  unfold Vector_init. rewrite (array_d_products k f).
  - reflexivity.
  - intros c. destruct k; simpl in Hk; try discriminate.
    + unfold py_mul. change (to_double (VInt z)) with
        (if F64.is_inf (F64.of_Z z) then Raise OverflowError else Ok (F64.of_Z z)).
      destruct (F64.is_inf (F64.of_Z z)); [discriminate|].
      injection Hk as <-. reflexivity.
    + injection Hk as <-. reflexivity.
Qed.

Lemma scale_not_Number (v : Vector) (k : value) :
  isinstance_Number k = false -> scale v k = Raise TypeError.
Proof. intros H. unfold scale. rewrite H. reflexivity. Qed.

Lemma scale_empty (k : value) (n : option float) :
  isinstance_Number k = true -> scale (mkVector [] n) k = Ok (vec []).
Proof. intros H. unfold scale. rewrite H. reflexivity. Qed.

Lemma scale_complex (c : float) (cs : list float) (n : option float) (re im : float) :
  scale (mkVector (c :: cs) n) (VComplex re im) = Raise TypeError.
Proof. reflexivity. Qed.

Lemma scale_int_overflow (c : float) (cs : list float) (n : option float) (z : Z) :
  to_double (VInt z) = Raise OverflowError ->
  scale (mkVector (c :: cs) n) (VInt z) = Raise OverflowError.
Proof.
  intros H. unfold scale, Vector_init.
  change (components (mkVector (c :: cs) n)) with (c :: cs).
  rewrite (array_d_first_fails (VInt z) OverflowError); [reflexivity|].
  unfold py_mul. rewrite H. reflexivity.
Qed.

(** The claim as stated: a Vector of products for every numeric [k], and
    [TypeError] exactly for the others. *)
Definition scale_claim (v : Vector) (k : value) : Prop :=
  (isinstance_Number k = true ->
   exists u, scale v k = Ok u
             /\ Forall2 (fun c x => py_mul k c = Ok (VFloat x))
                        (components v) (components u))
  /\ (scale v k = Raise TypeError <-> isinstance_Number k = false).

(** [scale(Vector([1.0]), 10**400)] overflows in the conversion of [k],
    and [scale(Vector([1.0]), 1j)] is refused by the array of doubles. *)
Lemma scale_numeric_failures :
  ~ scale_claim (vec [fl 1]) (VInt (10 ^ 400))
  /\ ~ scale_claim (vec [fl 1]) (VComplex (fl 0) (fl 1)).
Proof.
  split.
  - intros [H _]. destruct (H eq_refl) as [u [Hu _]].
    vm_compute in Hu. discriminate.
  - intros [_ [H _]]. specialize (H eq_refl). discriminate.
Qed.

(** C4, amended: [scale(v, k)] raises [TypeError], before any
    multiplication, whenever [k] is not a [Number].  For a float [k], and
    for an int [k] within the range of a double, it returns a new Vector
    whose components are those of [v] multiplied by [float(k)], and never
    raises [TypeError].  Being a [Number] is not enough: on a non-empty
    [v] a complex [k] fails with [TypeError], raised by the array of
    doubles, and an int beyond the range of a double fails with
    [OverflowError]; on the empty Vector every [Number] gives the empty
    Vector. *)
Theorem scale_spec :
  forall (v : Vector) (k : value),
    (isinstance_Number k = false -> scale v k = Raise TypeError)
    /\ (forall f, k = VFloat f ->
                  scale v k = Ok (vec (map (F64.mul f) (components v))))
    /\ (forall z, k = VInt z -> F64.is_inf (F64.of_Z z) = false ->
                  scale v k
                  = Ok (vec (map (F64.mul (F64.of_Z z)) (components v))))
    /\ (forall z, k = VInt z -> F64.is_inf (F64.of_Z z) = true ->
                  components v <> [] -> scale v k = Raise OverflowError)
    /\ (forall z, k = VInt z -> scale v k <> Raise TypeError)
    /\ (forall re im, k = VComplex re im -> components v <> [] ->
                      scale v k = Raise TypeError)
    /\ (isinstance_Number k = true -> components v = [] ->
        scale v k = Ok (vec [])).
Proof.
  intros v k.
  assert (Hin : forall z, F64.is_inf (F64.of_Z z) = false ->
                          to_double (VInt z) = Ok (F64.of_Z z))
    by (intros z Hz; unfold to_double; rewrite Hz; reflexivity).
  assert (Hout : forall z, F64.is_inf (F64.of_Z z) = true ->
                           to_double (VInt z) = Raise OverflowError)
    by (intros z Hz; unfold to_double; rewrite Hz; reflexivity).
  split; [apply scale_not_Number|].
  split; [intros f ->; apply scale_real; reflexivity|].
  split; [intros z -> Hz; apply scale_real, Hin, Hz|].
  split; [|split; [|split]].
  - intros z -> Hz Hv.
    destruct v as [[|c cs] n]; [contradiction Hv; reflexivity|].
    apply scale_int_overflow, Hout, Hz.
  - intros z -> H.
    destruct (F64.is_inf (F64.of_Z z)) eqn:Hz.
    + destruct v as [[|c cs] n].
      * rewrite (scale_empty (VInt z) n eq_refl) in H. discriminate.
      * rewrite (scale_int_overflow c cs n z (Hout z Hz)) in H. discriminate.
    + rewrite (scale_real v (VInt z) _ (Hin z Hz)) in H. discriminate.
  - intros re im -> Hv.
    destruct v as [[|c cs] n]; [contradiction Hv; reflexivity|].
    apply scale_complex.
  - intros Hn Hv. destruct v as [cs n]. cbn [components _components] in Hv.
    subst cs. apply scale_empty. exact Hn.
Qed.

Lemma scale_spec_witness :
  scale (vec [fl 1; fl 2]) (VInt 3) = Ok (vec [fl 3; fl 6])
  /\ scale (vec [fl 1; fl 2]) (VStr "k") = Raise TypeError
  /\ scale (vec [fl 1; fl 2]) (VComplex (fl 0) (fl 1)) = Raise TypeError
  /\ scale (vec [fl 1; fl 2]) (VInt (10 ^ 400)) = Raise OverflowError.
Proof.
  split; [|split; [|split]].
  - rewrite (proj1 (proj2 (proj2 (scale_spec (vec [fl 1; fl 2]) (VInt 3))))
               3 eq_refl eq_refl).
    vm_compute. reflexivity.
  - exact (proj1 (scale_spec (vec [fl 1; fl 2]) (VStr "k")) eq_refl).
  - apply (proj1 (proj2 (proj2 (proj2 (proj2 (proj2
             (scale_spec (vec [fl 1; fl 2]) (VComplex (fl 0) (fl 1))))))))
             (fl 0) (fl 1) eq_refl).
    discriminate.
  - apply (proj1 (proj2 (proj2 (proj2
             (scale_spec (vec [fl 1; fl 2]) (VInt (10 ^ 400))))))
             (10 ^ 400) eq_refl).
    + vm_compute. reflexivity.
    + discriminate.
Defined.

(** ** Equality *)

(** Two doubles agree after rounding to [ndigits] decimal places. *)
Definition rounded_equal (ndigits : Z) (c1 c2 : float) : Prop :=
  exists r1 r2, float_round c1 ndigits = Ok r1
                /\ float_round c2 ndigits = Ok r2
                /\ F64.eqb r1 r2 = true.

(** The same for a component and an item of any type, as the scan of
    [almost_equal] computes it, and its contrary. *)
Definition rounds_equal (ndigits : Z) (p : float * value) : Prop :=
  exists r1 r2, py_round (VFloat (fst p)) ndigits = Ok r1
                /\ py_round (snd p) ndigits = Ok r2
                /\ num_eq r1 r2 = true.

Definition rounds_unequal (ndigits : Z) (p : float * value) : Prop :=
  exists r1 r2, py_round (VFloat (fst p)) ndigits = Ok r1
                /\ py_round (snd p) ndigits = Ok r2
                /\ num_eq r1 r2 = false.

Lemma float_round_raises (x : float) (nd : Z) (e : exn) :
  float_round x nd = Raise e -> e = OverflowError.
Proof.
  destruct x as [s|s| |s m ex]; simpl; try discriminate.
  destruct (NDIGITS_MAX <? nd); [discriminate|].
  destruct (nd <? NDIGITS_MIN); [discriminate|].
  unfold double_round.
  destruct (round_half_even _ _); try discriminate.
  match goal with |- context [F64.is_inf ?r] => destruct (F64.is_inf r) end;
    [congruence | discriminate].
Qed.

Lemma py_round_raises (x : value) (nd : Z) (e : exn) :
  py_round x nd = Raise e -> e = OverflowError \/ e = TypeError.
Proof.
  destruct x; simpl; intros H; try (right; congruence); try discriminate.
  destruct (float_round f nd) as [r|e'] eqn:Hr; simpl in H; [discriminate|].
  left. apply float_round_raises in Hr. congruence.
Qed.

Lemma rounds_equal_floats (nd : Z) (c1 c2 : float) :
  rounds_equal nd (c1, VFloat c2) <-> rounded_equal nd c1 c2.
Proof.
  unfold rounds_equal, rounded_equal; simpl. split.
  - intros [r1 [r2 [H1 [H2 H]]]].
    destruct (float_round c1 nd) as [x|] ; [|discriminate].
    destruct (float_round c2 nd) as [y|] ; [|discriminate].
    simpl in H1, H2. injection H1 as <-. injection H2 as <-.
    exists x, y. auto.
  - intros [x [y [H1 [H2 H]]]]. exists (VFloat x), (VFloat y).
    rewrite H1, H2. auto.
Qed.

(** Rounding one of the two raises [e]. *)
Definition rounds_raise (ndigits : Z) (p : float * value) (e : exn) : Prop :=
  py_round (VFloat (fst p)) ndigits = Raise e
  \/ (exists r1, py_round (VFloat (fst p)) ndigits = Ok r1
                 /\ py_round (snd p) ndigits = Raise e).

Lemma all_rounded_equal_step (nd : Z) (p : float * value) (ps : list (float * value)) :
  (rounds_equal nd p /\ all_rounded_equal nd (p :: ps) = all_rounded_equal nd ps)
  \/ (rounds_unequal nd p /\ all_rounded_equal nd (p :: ps) = Ok false)
  \/ (exists e, rounds_raise nd p e /\ all_rounded_equal nd (p :: ps) = Raise e).
Proof.
  destruct p as [c1 c2]. unfold rounds_equal, rounds_unequal, rounds_raise.
  cbn [all_rounded_equal fst snd].
  destruct (py_round (VFloat c1) nd) as [r1|e1] eqn:H1.
  - destruct (py_round c2 nd) as [r2|e2] eqn:H2.
    + cbn [bind]. destruct (num_eq r1 r2) eqn:Hq.
      * left. split; [exists r1, r2; auto | reflexivity].
      * right; left. split; [exists r1, r2; auto | reflexivity].
    + right; right. exists e2. split; [right; exists r1; auto | reflexivity].
  - right; right. exists e1. split; [left; reflexivity | reflexivity].
Qed.

Lemma rounds_equal_unequal (nd : Z) (p : float * value) :
  rounds_equal nd p -> rounds_unequal nd p -> False.
Proof.
  intros [r1 [r2 [H1 [H2 H]]]] [s1 [s2 [K1 [K2 K]]]]. congruence.
Qed.

Lemma rounds_equal_raise (nd : Z) (p : float * value) (e : exn) :
  rounds_equal nd p -> rounds_raise nd p e -> False.
Proof.
  intros [r1 [r2 [H1 [H2 H]]]] [K|[s1 [K1 K2]]]; congruence.
Qed.

Lemma rounds_unequal_raise (nd : Z) (p : float * value) (e : exn) :
  rounds_unequal nd p -> rounds_raise nd p e -> False.
Proof.
  intros [r1 [r2 [H1 [H2 H]]]] [K|[s1 [K1 K2]]]; congruence.
Qed.

Lemma rounds_raise_kind (nd : Z) (p : float * value) (e : exn) :
  rounds_raise nd p e -> e = OverflowError \/ e = TypeError.
Proof.
  intros [K|[r1 [_ K]]]; eapply py_round_raises; eassumption.
Qed.

Lemma all_rounded_equal_true (nd : Z) (ps : list (float * value)) :
  all_rounded_equal nd ps = Ok true <-> Forall (rounds_equal nd) ps.
Proof.
  induction ps as [|p ps IH].
  - simpl. split; [constructor | reflexivity].
  - destruct (all_rounded_equal_step nd p ps) as [[Hp Hs]|[[Hp Hs]|[e [Hp Hs]]]];
      rewrite Hs.
    + rewrite IH. split; [intros H; constructor; assumption|].
      intros H. inversion H; assumption.
    + split; [discriminate|]. intros H. inversion H; subst.
      destruct (rounds_equal_unequal nd p); assumption.
    + split; [discriminate|]. intros H. inversion H; subst.
      destruct (rounds_equal_raise nd p e); assumption.
Qed.

Lemma all_rounded_equal_false (nd : Z) (ps : list (float * value)) :
  all_rounded_equal nd ps = Ok false <->
  exists pre p post, ps = pre ++ p :: post
                     /\ Forall (rounds_equal nd) pre
                     /\ rounds_unequal nd p.
Proof.
  induction ps as [|p ps IH].
  - simpl. split; [discriminate|].
    intros [pre [q [post [H _]]]]. destruct pre; discriminate.
  - destruct (all_rounded_equal_step nd p ps) as [[Hp Hs]|[[Hp Hs]|[e [Hp Hs]]]];
      rewrite Hs.
    + rewrite IH. split.
      * intros [pre [q [post [-> [Hpre Hq]]]]].
        exists (p :: pre), q, post. repeat split; [constructor|]; assumption.
      * intros [pre [q [post [Heq [Hpre Hq]]]]].
        destruct pre as [|p' pre]; simpl in Heq; injection Heq as <- ->.
        -- destruct (rounds_equal_unequal nd p); assumption.
        -- inversion Hpre; subst. exists pre, q, post. auto.
    + split; [|reflexivity]. intros _.
      exists [], p, ps. repeat split; [constructor | assumption].
    + split; [discriminate|].
      intros [pre [q [post [Heq [Hpre Hq]]]]].
      destruct pre as [|p' pre]; simpl in Heq; injection Heq as <- ->.
      * destruct (rounds_unequal_raise nd p e); assumption.
      * inversion Hpre; subst. destruct (rounds_equal_raise nd p e); assumption.
Qed.

Lemma all_rounded_equal_raises (nd : Z) (ps : list (float * value)) (e : exn) :
  all_rounded_equal nd ps = Raise e -> e = OverflowError \/ e = TypeError.
Proof.
  induction ps as [|p ps IH]; [discriminate|].
  destruct (all_rounded_equal_step nd p ps) as [[Hp Hs]|[[Hp Hs]|[e' [Hp Hs]]]];
    rewrite Hs; [exact IH | discriminate |].
  intros H. injection H as <-. eapply rounds_raise_kind; eassumption.
Qed.

Lemma Forall_zip_floats (nd : Z) (xs ys : list float) :
  List.length xs = List.length ys ->
  (Forall (rounds_equal nd) (zip xs (map VFloat ys))
   <-> Forall2 (rounded_equal nd) xs ys).
Proof.
  revert ys. induction xs as [|x xs IH]; intros [|y ys] Hlen;
    try discriminate; simpl.
  - split; constructor.
  - injection Hlen as Hlen. split; intros H; inversion H; subst; constructor.
    + apply rounds_equal_floats. assumption.
    + apply IH; assumption.
    + apply rounds_equal_floats. assumption.
    + apply IH; assumption.
Qed.

Lemma almost_equal_unfold (v1 : Vector) (v2 : Vector) (nd : Z) :
  almost_equal v1 v2 nd =
  (close <- all_rounded_equal nd (zip (components v1) (map VFloat (components v2))) ;;
   Ok (close && (dim v1 =? dim v2))).
Proof.
  unfold almost_equal. simpl.
  destruct (all_rounded_equal _ _) as [[|]|e]; reflexivity.
Qed.

(** C5: two Vectors compare equal, through [almost_equal] and through
    [==] at the configured precision, if and only if they have the same
    dimension and every pair of corresponding components, each rounded on
    its own to that precision, is equal.  This is not equality of the
    bits: [0.0] and [-0.0] compare equal at every precision, and a NaN
    component compares unequal to itself. *)
Theorem almost_equal_iff :
  (forall (nd : Z) (v1 v2 : Vector),
      almost_equal v1 v2 nd = Ok true <->
      dim v1 = dim v2
      /\ Forall2 (rounded_equal nd) (components v1) (components v2))
  /\ (forall (E : Env) (v1 v2 : Vector),
         Vector___eq__ v1 v2 = Ok true <->
         dim v1 = dim v2
         /\ Forall2 (rounded_equal PRECISION) (components v1) (components v2))
  /\ (forall nd : Z,
         vec [S754_zero false] <> vec [S754_zero true]
         /\ almost_equal (vec [S754_zero false]) (vec [S754_zero true]) nd = Ok true)
  /\ (forall nd : Z, almost_equal (vec [F64.nan]) (vec [F64.nan]) nd = Ok false).
Proof.
  assert (Hiff : forall (nd : Z) (v1 v2 : Vector),
      almost_equal v1 v2 nd = Ok true <->
      dim v1 = dim v2
      /\ Forall2 (rounded_equal nd) (components v1) (components v2)).
  { intros nd v1 v2. rewrite almost_equal_unfold. split.
    - intros H.
      destruct (all_rounded_equal _ _) as [close|e] eqn:Hc; [|discriminate].
      simpl in H. injection H as H. apply andb_prop in H as [-> Hd].
      apply Z.eqb_eq in Hd. split; [exact Hd|].
      apply Forall_zip_floats; [unfold dim in Hd; lia|].
      apply all_rounded_equal_true. exact Hc.
    - intros [Hd HF].
      apply Forall_zip_floats in HF; [|unfold dim in Hd; lia].
      apply all_rounded_equal_true in HF. rewrite HF. simpl.
      rewrite Hd, Z.eqb_refl. reflexivity. }
  split; [exact Hiff|]. split; [intros E v1 v2; apply Hiff|].
  split; intros nd.
  - split; [discriminate | reflexivity].
  - reflexivity.
Qed.

(** At seven digits, a difference in the eighth decimal place is not
    seen and one in the seventh is. *)
Lemma almost_equal_tolerance_boundary :
  almost_equal (vec [fl 1]) (vec [F64.of_ratio false 100000001 100000000]) 7
  = Ok true
  /\ almost_equal (vec [fl 1]) (vec [F64.of_ratio false 10000001 10000000]) 7
     = Ok false.
Proof. split; vm_compute; reflexivity. Qed.

(** ** dot *)

Lemma mul_comm (x y : float) : F64.mul x y = F64.mul y x.
Proof.
  unfold F64.mul, SFmul.
  destruct x as [sx|sx| |sx mx ex], y as [sy|sy| |sy my ey];
    try reflexivity; rewrite (xorb_comm sx sy); try reflexivity.
  rewrite (Pos.mul_comm mx my), (Z.add_comm ex ey). reflexivity.
Qed.

(** The products [c1 * c2 for c1, c2 in zip(v1, v2)]. *)
Definition products (xs ys : list float) : list float :=
  map (fun '(c1, c2) => F64.mul c1 c2) (zip xs ys).

Lemma products_comm (xs ys : list float) : products xs ys = products ys xs.
Proof.
  revert ys. induction xs as [|x xs IH]; intros [|y ys]; try reflexivity.
  unfold products in *. simpl. rewrite mul_comm, IH. reflexivity.
Qed.

Lemma products_self (xs : list float) :
  products xs xs = map (fun c => F64.mul c c) xs.
Proof.
  induction xs as [|x xs IH]; [reflexivity|].
  unfold products in *. simpl. rewrite IH. reflexivity.
Qed.

Lemma dot_vectors (v1 v2 : Vector) :
  dot v1 v2 =
  if dim v1 =? dim v2 then math_fsum (products (components v1) (components v2))
  else Raise ValueError.
Proof.
  unfold dot. destruct (dim v1 =? dim v2); reflexivity.
Qed.

Lemma dot_comm (v1 v2 : Vector) : dot v1 v2 = dot v2 v1.
Proof.
  rewrite !dot_vectors, (Z.eqb_sym (dim v2)), products_comm. reflexivity.
Qed.

Lemma eqb_refl (x : float) : F64.is_nan x = false -> F64.eqb x x = true.
Proof.
  unfold F64.eqb, SFeqb, SFcompare.
  destruct x as [s|s| |s m e]; try discriminate; intros _;
    try (destruct s; reflexivity).
  rewrite Z.compare_refl, Pos.compare_cont_refl. destruct s; reflexivity.
Qed.

(** The same double: both NaN, or neither and then the same bits. *)
Definition same_double (x y : float) : Prop :=
  (F64.is_nan x = true /\ F64.is_nan y = true)
  \/ (F64.is_nan x = false /\ y = x).

(** Two outcomes that agree: the same error, or the same double. *)
Definition same_outcome (r1 r2 : result float) : Prop :=
  match r1, r2 with
  | Ok x, Ok y => same_double x y
  | Raise e1, Raise e2 => e1 = e2
  | _, _ => False
  end.

Lemma same_double_refl (x : float) : same_double x x.
Proof.
  unfold same_double. destruct (F64.is_nan x); [left | right]; auto.
Qed.

(** The claim as stated: [dot(v1, v2) == dot(v2, v1)] evaluates to [True]. *)
Definition dot_symmetric (v1 v2 : Vector) : Prop :=
  (x <- dot v1 v2 ;; y <- dot v2 v1 ;; Ok (F64.eqb x y)) = Ok true.

(** With a NaN component both products are NaN, and NaN differs from
    itself; with finite components whose products overflow to opposite
    infinities both calls raise [ValueError] from [fsum]. *)
Lemma dot_nan_not_equal :
  (dim (vec [F64.nan]) = dim (vec [fl 1])
   /\ dot (vec [F64.nan]) (vec [fl 1]) = Ok F64.nan
   /\ dot (vec [fl 1]) (vec [F64.nan]) = Ok F64.nan
   /\ ~ dot_symmetric (vec [F64.nan]) (vec [fl 1]))
  /\ (let a := vec [fl (10 ^ 200); fl (10 ^ 200)] in
      let b := vec [fl (10 ^ 200); fl (- 10 ^ 200)] in
      dim a = dim b
      /\ dot a b = Raise ValueError
      /\ ~ dot_symmetric a b).
Proof.
  split; [|cbv zeta].
  - split; [reflexivity|]. split; [reflexivity|]. split; [reflexivity|].
    intros H. vm_compute in H. discriminate.
  - split; [reflexivity|]. split; [vm_compute; reflexivity|].
    intros H. vm_compute in H. discriminate.
Qed.

(** C7, amended: [dot(v1, v2)] and [dot(v2, v1)] have the same outcome:
    both raise the same error, or both return NaN, or both return the same
    double that is not NaN, bit for bit.  The comparison
    [dot(v1, v2) == dot(v2, v1)] is therefore [True] whenever the call
    returns a float that is not NaN. *)
Theorem dot_symmetric_outcome :
  forall v1 v2 : Vector,
    same_outcome (dot v1 v2) (dot v2 v1)
    /\ (forall x, dot v1 v2 = Ok x -> F64.is_nan x = false ->
                  dot v2 v1 = Ok x /\ dot_symmetric v1 v2).
Proof.
  intros v1 v2. split.
  - rewrite <- (dot_comm v1 v2). unfold same_outcome.
    destruct (dot v1 v2) as [x|e]; [apply same_double_refl | reflexivity].
  - intros x Hx Hnan. split; [rewrite <- (dot_comm v1 v2); exact Hx|].
    unfold dot_symmetric.
    rewrite <- (dot_comm v1 v2), Hx. simpl. rewrite (eqb_refl x Hnan).
    reflexivity.
Qed.

Lemma dot_symmetric_outcome_witness :
  dot (vec [fl 1; fl 2]) (vec [fl 3; fl 4]) = Ok (fl 11)
  /\ dot_symmetric (vec [fl 1; fl 2]) (vec [fl 3; fl 4]).
Proof.
  assert (H : dot (vec [fl 1; fl 2]) (vec [fl 3; fl 4]) = Ok (fl 11))
    by (vm_compute; reflexivity).
  split; [exact H|].
  exact (proj2 (proj2 (dot_symmetric_outcome (vec [fl 1; fl 2])
                         (vec [fl 3; fl 4])) (fl 11) H eq_refl)).
Defined.

(** ** norm *)

Lemma dot_self (v : Vector) :
  dot v v = math_fsum (map (fun c => F64.mul c c) (components v)).
Proof.
  rewrite dot_vectors, Z.eqb_refl, products_self. reflexivity.
Qed.

(** The cache, once filled, holds what [sqrt(dot(self, self))] gives: true
    of every Vector as constructed, and kept by every read of [norm]. *)
Definition cache_valid (v : Vector) : Prop :=
  match _norm v with
  | None => True
  | Some n => (d <- dot v v ;; math_sqrt d) = Ok n
  end.

Lemma Vector_init_fresh (items : list (result value)) (v : Vector) :
  Vector_init items = Ok v -> _norm v = None.
Proof.
  unfold Vector_init. destruct (array_d items); simpl; [|discriminate].
  intros H. injection H as <-. reflexivity.
Qed.

Lemma norm_value (v : Vector) :
  cache_valid v ->
  (r <- norm v ;; Ok (fst r)) = (d <- dot v v ;; math_sqrt d).
Proof.
  unfold cache_valid, norm. destruct (_norm v) as [n|].
  - intros ->. reflexivity.
  - intros _. destruct (dot v v) as [d|e]; simpl; [|reflexivity].
    destruct (math_sqrt d); reflexivity.
Qed.

Lemma norm_cached (v : Vector) (n : float) (v' : Vector) :
  cache_valid v -> norm v = Ok (n, v') ->
  components v' = components v /\ _norm v' = Some n
  /\ cache_valid v' /\ norm v' = Ok (n, v').
Proof.
  unfold cache_valid, norm. destruct (_norm v) as [m|] eqn:Hm.
  - intros Hv H. injection H as <- <-. rewrite Hm. auto.
  - intros _ H.
    destruct (dot v v) as [d|e] eqn:Hd; simpl in H; [|discriminate].
    destruct (math_sqrt d) as [r|e] eqn:Hr; simpl in H; [|discriminate].
    injection H as <- <-.
    split; [reflexivity|]. split; [reflexivity|]. split; [|reflexivity].
    cbn [_norm]. rewrite dot_self in *.
    change (components (mkVector (_components v) (Some r))) with (components v).
    rewrite Hd. exact Hr.
Qed.

(** C9: on a Vector as constructed, and after any number of reads, the
    [norm] accessor gives what [sqrt(dot(self, self))] gives, the square
    root of the sum of the squared components.  The first read stores the
    value in the instance, whose components stay as they were, and a second
    read returns that very value without changing the instance again.
    [Vector([3, 4]).norm] is [5.0]. *)
Theorem norm_spec :
  (forall (items : list (result value)) (v : Vector),
      Vector_init items = Ok v -> cache_valid v)
  /\ (forall v : Vector,
         cache_valid v ->
         (r <- norm v ;; Ok (fst r)) = (d <- dot v v ;; math_sqrt d)
         /\ dot v v = math_fsum (map (fun c => F64.mul c c) (components v))
         /\ (forall n v', norm v = Ok (n, v') ->
                          components v' = components v
                          /\ _norm v' = Some n
                          /\ cache_valid v'
                          /\ norm v' = Ok (n, v')))
  /\ (exists v v',
         Vector_init [Ok (VInt 3); Ok (VInt 4)] = Ok v
         /\ norm v = Ok (fl 5, v')
         /\ norm v' = Ok (fl 5, v')
         /\ F64.eqb (fl 5) (fl 5) = true).
Proof.
  split; [|split].
  - intros items v H. unfold cache_valid.
    rewrite (Vector_init_fresh items v H). exact I.
  - intros v Hv. split; [apply norm_value; exact Hv|].
    split; [apply dot_self|].
    intros n v'. apply norm_cached. exact Hv.
  - exists (vec [fl 3; fl 4]), (mkVector [fl 3; fl 4] (Some (fl 5))).
    repeat split; vm_compute; reflexivity.
Qed.

Lemma norm_spec_witness :
  cache_valid (vec [fl 3; fl 4])
  /\ (r <- norm (vec [fl 3; fl 4]) ;; Ok (fst r)) = Ok (fl 5).
Proof.
  assert (H : cache_valid (vec [fl 3; fl 4])) by exact I.
  split; [exact H|].
  rewrite (proj1 (proj1 (proj2 norm_spec) (vec [fl 3; fl 4]) H)).
  vm_compute. reflexivity.
Defined.

(** ** Rounding of small integers

    At every non-negative precision [round] leaves [1.0] and [2.0] as they
    are: checked for each count of digits up to [NDIGITS_MAX], beyond which
    [round] returns its argument. *)

Lemma same_eq (x y : float) : F64.same x y = true -> x = y.
Proof.
  destruct x as [s|s| |s m e], y as [t|t| |t n f]; simpl; try discriminate;
    try reflexivity.
  - intros H. apply Bool.eqb_prop in H. congruence.
  - intros H. apply Bool.eqb_prop in H. congruence.
  - intros H. apply andb_prop in H as [H He]. apply andb_prop in H as [Hs Hm].
    apply Bool.eqb_prop in Hs. apply Pos.eqb_eq in Hm. apply Z.eqb_eq in He.
    congruence.
Qed.

Definition ndigits_range : list Z := map Z.of_nat (seq 0 324).

Lemma ndigits_range_complete (nd : Z) :
  0 <= nd <= NDIGITS_MAX -> In nd ndigits_range.
Proof.
  intros H. unfold ndigits_range, NDIGITS_MAX in *.
  rewrite <- (Z2Nat.id nd) by lia.
  apply in_map, in_seq. lia.
Qed.

Definition round_fixes (x : float) (nd : Z) : bool :=
  match float_round x nd with
  | Ok r => F64.same r x
  | Raise _ => false
  end.

Lemma float_round_fixed (x : float) :
  forallb (round_fixes x) ndigits_range = true ->
  forall nd, 0 <= nd -> float_round x nd = Ok x.
Proof.
  intros Hall nd Hnd.
  destruct (Z.ltb_spec NDIGITS_MAX nd) as [Hbig|Hsmall].
  - destruct x as [s|s| |s m e]; try reflexivity.
    unfold float_round.
    destruct (Z.ltb_spec NDIGITS_MAX nd); [reflexivity | lia].
  - rewrite forallb_forall in Hall.
    specialize (Hall nd (ndigits_range_complete nd (conj Hnd Hsmall))).
    unfold round_fixes in Hall.
    destruct (float_round x nd) as [r|e]; [|discriminate].
    apply same_eq in Hall. congruence.
Qed.

Lemma float_round_one (nd : Z) : 0 <= nd -> float_round (fl 1) nd = Ok (fl 1).
Proof. apply float_round_fixed. vm_compute. reflexivity. Qed.

Lemma float_round_two (nd : Z) : 0 <= nd -> float_round (fl 2) nd = Ok (fl 2).
Proof. apply float_round_fixed. vm_compute. reflexivity. Qed.

(** ** Unit vectors *)

Lemma scale_ignores_cache (v w : Vector) (k : value) :
  components v = components w -> scale v k = scale w k.
Proof. intros H. unfold scale. rewrite H. reflexivity. Qed.

Lemma build_unit_vector_unfold (v : Vector) (n : float) (v' : Vector) :
  cache_valid v -> norm v = Ok (n, v') ->
  build_unit_vector v = (k <- truediv one n ;; scale v (VFloat k)).
Proof.
  intros Hv Hn. unfold build_unit_vector. rewrite Hn. cbn [bind].
  destruct (truediv one n) as [k|e]; [|reflexivity]. cbn [bind].
  apply scale_ignores_cache.
  apply (norm_cached v n v' Hv Hn).
Qed.

(** The claim's second part as stated, at precision [nd]: whenever the norm
    of [v] is not zero, the norm of [build_unit_vector(v)] rounds to what
    [1.0] rounds to. *)
Definition unit_norm_claim (nd : Z) (v : Vector) : Prop :=
  forall n v', norm v = Ok (n, v') -> F64.eqb n F64.zero = false ->
  exists u m u', build_unit_vector v = Ok u
                 /\ norm u = Ok (m, u')
                 /\ rounded_equal nd m one.

(** [1e200]: a finite double whose square overflows. *)
Definition huge : float := fl (10 ^ 200).

(** C6: [build_unit_vector], documented as building a unit vector, does
    not build one from [Vector([1e200])], whose norm is not zero: the
    square of the component overflows, the norm read is infinite, its
    inverse is [0.0], and the Vector returned is the zero vector, of norm
    [0.0], which rounds to [1.0] at no non-negative precision. *)
Theorem unit_norm_of_huge_is_zero :
  norm (vec [huge]) = Ok (F64.inf, mkVector [huge] (Some F64.inf))
  /\ build_unit_vector (vec [huge]) = Ok (vec [F64.zero])
  /\ norm (vec [F64.zero]) = Ok (F64.zero, mkVector [F64.zero] (Some F64.zero))
  /\ ~ (exists nd, 0 <= nd /\ unit_norm_claim nd (vec [huge])).
Proof.
  assert (Hn : norm (vec [huge]) = Ok (F64.inf, mkVector [huge] (Some F64.inf)))
    by (vm_compute; reflexivity).
  assert (Hb : build_unit_vector (vec [huge]) = Ok (vec [F64.zero]))
    by (vm_compute; reflexivity).
  assert (Hz : norm (vec [F64.zero])
               = Ok (F64.zero, mkVector [F64.zero] (Some F64.zero)))
    by (vm_compute; reflexivity).
  repeat split; try assumption.
  intros [nd [Hnd H]].
  destruct (H _ _ Hn eq_refl) as [u [m [u' [Hu [Hm [r1 [r2 [H1 [H2 Hr]]]]]]]]].
  rewrite Hb in Hu. injection Hu as <-.
  rewrite Hz in Hm. injection Hm as <- <-.
  change one with (fl 1) in H2. rewrite (float_round_one nd Hnd) in H2.
  change (float_round F64.zero nd) with (Ok F64.zero) in H1.
  injection H1 as <-. injection H2 as <-. discriminate.
Qed.

(** [1e-160]: a double whose square is subnormal. *)
Definition tiny : float := F64.of_ratio false 1 (10 ^ 160).

(** The same defect at the other end of the range: the square of [1e-160]
    loses most of its bits, and the vector built from [Vector([1e-160])]
    has norm [1.0000055664551362]. *)
Lemma unit_norm_of_tiny_is_off :
  (exists u u',
      build_unit_vector (vec [tiny]) = Ok u
      /\ norm u = Ok (S754_finite false 4503624696455773 (-52), u'))
  /\ ~ unit_norm_claim 7 (vec [tiny]).
Proof.
  split.
  - exists (vec [S754_finite false 4503624696455773 (-52)]). eexists.
    split; vm_compute; reflexivity.
  - intros H.
    destruct (norm (vec [tiny])) as [[n v']|e] eqn:Hn;
      [|vm_compute in Hn; discriminate].
    assert (Hn' := Hn). vm_compute in Hn'. injection Hn' as Hn1 Hn2.
    destruct (H n v' Hn) as [u [m [u' [Hu [Hm [r1 [r2 [H1 [H2 Hr]]]]]]]]].
    { rewrite <- Hn1. reflexivity. }
    vm_compute in Hu. injection Hu as <-.
    vm_compute in Hm. injection Hm as <- <-.
    vm_compute in H1. injection H1 as <-.
    vm_compute in H2. injection H2 as <-.
    vm_compute in Hr. discriminate.
Qed.

(** What [build_unit_vector] does in general: with [n] the norm of [v],
    it returns [scale(v, 1/n)], a Vector of the components of [v] each
    multiplied by the double [1/n], when [n] is not zero, and fails with
    [ZeroDivisionError] when [n] is zero, as does [make_unitary] on
    components of zero norm. *)
Lemma build_unit_vector_spec :
  (forall (v : Vector) (n : float) (v' : Vector),
      cache_valid v -> norm v = Ok (n, v') ->
      (F64.eqb n F64.zero = false ->
       build_unit_vector v = scale v (VFloat (F64.div one n))
       /\ build_unit_vector v
          = Ok (vec (map (F64.mul (F64.div one n)) (components v))))
      /\ (F64.eqb n F64.zero = true ->
          build_unit_vector v = Raise ZeroDivisionError))
  /\ (forall (items : list value) (v : Vector),
         Vector_init (map Ok items) = Ok v ->
         make_unitary items = build_unit_vector v).
Proof.
  split.
  - intros v n v' Hv Hn.
    rewrite (build_unit_vector_unfold v n v' Hv Hn). unfold truediv.
    split; intros ->; cbn [bind]; [|reflexivity].
    split; [reflexivity|]. apply scale_real. reflexivity.
  - intros items v H. unfold make_unitary. rewrite H. reflexivity.
Qed.

(** ** Equality with a value that is not a Vector *)

Lemma almost_equal_list (v : Vector) (items : list value) (nd : Z) :
  almost_equal v (VList items) nd =
  (close <- all_rounded_equal nd (zip (components v) items) ;;
   if close then Raise AttributeError else Ok false).
Proof.
  unfold almost_equal. cbn [py_iter bind].
  destruct (all_rounded_equal _ _) as [[|]|e]; reflexivity.
Qed.

Lemma almost_equal_never_True (v : Vector) (o : value) (nd : Z) :
  (forall u, o <> VVector u) -> almost_equal v o nd <> Ok true.
Proof.
  intros Ho. unfold almost_equal.
  destruct (py_iter o) as [items|e]; cbn [bind]; [|discriminate].
  destruct (all_rounded_equal _ _) as [[|]|e]; cbn [bind]; try discriminate.
  destruct o; cbn [dim_of bind]; try discriminate.
  destruct (Ho v0). reflexivity.
Qed.

(** The claim as stated, for a list [items]: [v == items] raises
    [AttributeError]. *)
Definition eq_list_raises (E : Env) (v : Vector) (items : list value) : Prop :=
  Vector___eq__ v (VList items) = Raise AttributeError.

(** [Vector([1, 2]) == [1, 3]] is [False] at every non-negative precision:
    the scan stops at the second pair and [dim] is never read. *)
Lemma eq_list_returns_False :
  @Vector___eq__ (env 7) (vec [fl 1; fl 2]) (VList [VInt 1; VInt 3]) = Ok false
  /\ ~ (exists E : Env,
          0 <= PRECISION
          /\ eq_list_raises E (vec [fl 1; fl 2]) [VInt 1; VInt 3]).
Proof.
  assert (H : forall nd, 0 <= nd ->
            almost_equal (vec [fl 1; fl 2]) (VList [VInt 1; VInt 3]) nd = Ok false).
  { intros nd Hnd. rewrite almost_equal_list.
    cbn [components _components vec zip combine all_rounded_equal py_round].
    rewrite (float_round_one nd Hnd), (float_round_two nd Hnd).
    destruct (Z.leb_spec 0 nd); [reflexivity | lia]. }
  split; [apply (H 7); lia|].
  intros [E [Hp He]]. unfold eq_list_raises, Vector___eq__ in He.
  rewrite (H _ Hp) in He. discriminate.
Qed.

Definition iterable (o : value) : bool :=
  match py_iter o with Ok _ => true | Raise _ => false end.

(** C10, amended: comparing a Vector with a value that is not a Vector
    never returns [True].  With a list, [==] raises [AttributeError]
    exactly when every pair of a component and the item at its place is
    equal after rounding (so also when there is no pair), and returns
    [False] exactly when the scan reaches a pair that is not equal, the
    attribute [dim] of the list being read only after the scan.  With a
    value that cannot be iterated, such as a number or [None], [==] raises
    [TypeError]. *)
Theorem eq_non_vector_spec :
  forall (E : Env) (v : Vector),
    (forall o, (forall u, o <> VVector u) -> Vector___eq__ v o <> Ok true)
    /\ (forall items,
           (Vector___eq__ v (VList items) = Raise AttributeError <->
            Forall (rounds_equal PRECISION) (zip (components v) items))
           /\ (Vector___eq__ v (VList items) = Ok false <->
               exists pre p post,
                 zip (components v) items = pre ++ p :: post
                 /\ Forall (rounds_equal PRECISION) pre
                 /\ rounds_unequal PRECISION p))
    /\ (forall o, iterable o = false -> Vector___eq__ v o = Raise TypeError).
Proof.
  intros E v. unfold Vector___eq__. split; [|split].
  - intros o Ho. apply almost_equal_never_True. exact Ho.
  - intros items. rewrite almost_equal_list.
    rewrite <- all_rounded_equal_true, <- all_rounded_equal_false.
    destruct (all_rounded_equal _ _) as [[|]|e] eqn:Hs; cbn [bind].
    + split; split; (reflexivity || discriminate || auto).
    + split; split; (reflexivity || discriminate || auto).
    + apply all_rounded_equal_raises in Hs.
      split; split; intros H; try discriminate; destruct Hs; congruence.
  - intros o Ho. unfold almost_equal, iterable in *.
    destruct o; try discriminate; reflexivity.
Qed.

Lemma eq_non_vector_spec_witness :
  @Vector___eq__ (env 7) (vec [fl 1; fl 2]) (VList [VInt 1; VInt 2]) <> Ok true
  /\ @Vector___eq__ (env 7) (vec [fl 1; fl 2]) (VInt 5) = Raise TypeError.
Proof.
  split.
  - apply (proj1 (eq_non_vector_spec (env 7) (vec [fl 1; fl 2]))).
    intros u. discriminate.
  - apply (proj2 (proj2 (eq_non_vector_spec (env 7) (vec [fl 1; fl 2])))).
    reflexivity.
Defined.

(** * Further properties of the module *)

(** ** Exact arithmetic on doubles *)

(** A well-formed binary64 datum: canonical mantissa, exponent in range. *)
Definition valid (x : float) : bool := valid_binary F64.prec F64.emax x.

Definition is_zero (x : float) : bool :=
  match x with S754_zero _ => true | _ => false end.

Definition minus_one : float := fl (-1).

(** Every component is a well-formed double. *)
Definition valid_vector (v : Vector) : Prop :=
  Forall (fun c => valid c = true) (components v).

(** Every component is finite: neither an infinity nor a NaN. *)
Definition finite_vector (v : Vector) : Prop :=
  Forall (fun c => F64.is_finite c = true) (components v).

(** The zero vector of the dimension of [v], as [make_zero] builds it. *)
Definition zeros_like (v : Vector) : Vector :=
  vec (repeat F64.zero (List.length (components v))).

Lemma round_aux_shift52 (s : bool) (m : positive) (e : Z) :
  bounded F64.prec F64.emax m e = true ->
  binary_round_aux F64.prec F64.emax s
    (Z.pos (Pos.mul 4503599627370496 m)) (-52 + e) loc_Exact
  = S754_finite s m e.
Proof.
  intros Hb. unfold bounded in Hb. apply andb_prop in Hb as [Hc He].
  unfold canonical_mantissa in Hc. apply Z.eqb_eq in Hc.
  assert (Hd : Z.pos (digits2_pos (Pos.mul 4503599627370496 m))
               = Z.pos (digits2_pos m) + 52)
    by (cbn [Pos.mul digits2_pos]; lia).
  unfold binary_round_aux at 1. unfold shr_fexp at 1.
  cbn [Zdigits2]. rewrite Hd.
  replace (Z.pos (digits2_pos m) + 52 + (-52 + e))
    with (Z.pos (digits2_pos m) + e) by lia.
  rewrite Hc. replace (e - (-52 + e)) with 52 by lia.
  cbn [shr shr_record_of_loc Pos.mul iter_pos shr_1 orb loc_of_shr_record
       shr_m round_nearest_even].
  replace (-52 + e + 52) with e by lia.
  unfold shr_fexp. cbn [Zdigits2]. rewrite Hc, Z.sub_diag.
  cbn [shr shr_record_of_loc shr_m]. rewrite He. reflexivity.
Qed.

Lemma mul_one (x : float) : valid x = true -> F64.mul one x = x.
Proof.
  intros Hv. destruct x as [s|s| |s m e];
    try reflexivity; try (destruct s; reflexivity).
  change (F64.mul one (S754_finite s m e))
    with (binary_round_aux F64.prec F64.emax (xorb false s)
            (Z.pos (Pos.mul 4503599627370496 m)) (-52 + e) loc_Exact).
  rewrite (round_aux_shift52 _ m e Hv). reflexivity.
Qed.

Lemma mul_minus_one (x : float) :
  valid x = true -> F64.mul minus_one x = SFopp x.
Proof.
  intros Hv. destruct x as [s|s| |s m e]; try reflexivity.
  change (F64.mul minus_one (S754_finite s m e))
    with (binary_round_aux F64.prec F64.emax (xorb true s)
            (Z.pos (Pos.mul 4503599627370496 m)) (-52 + e) loc_Exact).
  rewrite (round_aux_shift52 _ m e Hv). reflexivity.
Qed.

Lemma add_opp (x : float) :
  F64.is_finite x = true -> F64.add x (SFopp x) = F64.zero.
Proof.
  destruct x as [s|s| |s m e]; try discriminate; intros _.
  - destruct s; reflexivity.
  - unfold F64.add, SFadd, SFopp. rewrite Z.min_id.
    unfold shl_align. rewrite Z.sub_diag. cbn [fst].
    replace (cond_Zopp s (Z.pos m) + cond_Zopp (negb s) (Z.pos m)) with 0
      by (destruct s; cbn [cond_Zopp negb]; lia).
    reflexivity.
Qed.

Lemma fadd_comm (x y : float) : F64.add x y = F64.add y x.
Proof.
  unfold F64.add, SFadd.
  destruct x as [sx|sx| |sx mx ex], y as [sy|sy| |sy my ey];
    try reflexivity; try (destruct sx, sy; reflexivity).
  rewrite (Z.min_comm ey ex), Z.add_comm. reflexivity.
Qed.

Lemma fadd_zero (x : float) :
  F64.add x F64.zero = if is_zero x then F64.zero else x.
Proof. destruct x as [[]|s| |s m e]; reflexivity. Qed.

Lemma mul_opp_opp (x : float) : F64.mul (SFopp x) (SFopp x) = F64.mul x x.
Proof.
  destruct x as [s|s| |s m e]; try reflexivity; destruct s; reflexivity.
Qed.

Lemma valid_opp (x : float) : valid (SFopp x) = valid x.
Proof. destruct x; reflexivity. Qed.

Lemma opp_involutive (x : float) : SFopp (SFopp x) = x.
Proof.
  destruct x as [s|s| |s m e]; simpl; rewrite ?negb_involutive; reflexivity.
Qed.

Lemma mul_finite_zero (n : float) :
  F64.is_finite n = true ->
  F64.eqb (F64.mul n F64.zero) F64.zero = true
  /\ F64.eqb (F64.mul F64.zero n) F64.zero = true.
Proof.
  destruct n as [s|s| |s m e]; try discriminate; intros _;
    split; destruct s; reflexivity.
Qed.

(** [x == y] on doubles: the same number, the two zeros being one. *)
Definition same_number (x y : float) : Prop :=
  match x, y with
  | S754_zero _, S754_zero _ => True
  | S754_infinity s, S754_infinity t => s = t
  | S754_finite s m e, S754_finite t n f => s = t /\ m = n /\ e = f
  | _, _ => False
  end.

Lemma eqb_same_number (x y : float) : F64.eqb x y = true <-> same_number x y.
Proof.
  unfold F64.eqb, SFeqb, same_number.
  destruct x as [[]|[]| |[] m e], y as [[]|[]| |[] n f]; cbn [SFcompare];
    try (split; [discriminate | contradiction]);
    try (split; [discriminate | intros H; discriminate H]);
    try (split; [discriminate | intros [H _]; discriminate H]);
    try (split; [intros _; exact I | reflexivity]);
    try (split; intros _; reflexivity).
  - destruct (Z.compare_spec e f) as [He|He|He];
      try (split; [discriminate | intros [_ [_ H]]; lia]).
    destruct (Pos.compare_cont Eq m n) eqn:Hc; cbn [CompOpp];
      try (split; [discriminate | intros [_ [H _]]; subst;
                   rewrite Pos.compare_cont_refl in Hc; discriminate]).
    apply Pos.compare_eq_iff in Hc. subst. split; auto.
  - destruct (Z.compare_spec e f) as [He|He|He];
      try (split; [discriminate | intros [_ [_ H]]; lia]).
    destruct (Pos.compare_cont Eq m n) eqn:Hc;
      try (split; [discriminate | intros [_ [H _]]; subst;
                   rewrite Pos.compare_cont_refl in Hc; discriminate]).
    apply Pos.compare_eq_iff in Hc. subst. split; auto.
Qed.

Lemma feqb_sym (x y : float) : F64.eqb x y = F64.eqb y x.
Proof.
  assert (S : forall a b, same_number a b -> same_number b a).
  { intros a b. destruct a, b; simpl; try tauto; try congruence.
    intros [-> [-> ->]]. auto. }
  destruct (F64.eqb x y) eqn:H1, (F64.eqb y x) eqn:H2; try reflexivity.
  - apply eqb_same_number, S, eqb_same_number in H1. congruence.
  - apply eqb_same_number, S, eqb_same_number in H2. congruence.
Qed.

Lemma feqb_trans (x y z : float) :
  F64.eqb x y = true -> F64.eqb y z = true -> F64.eqb x z = true.
Proof.
  rewrite !eqb_same_number.
  destruct x, y, z; simpl; try tauto; try congruence.
  intros [-> [-> ->]] [-> [-> ->]]. auto.
Qed.

Lemma map_ext_Forall {A B} (P : A -> Prop) (f g : A -> B) (l : list A) :
  (forall x, P x -> f x = g x) -> Forall P l -> map f l = map g l.
Proof.
  intros H HF. induction HF as [|x l Hx _ IH]; simpl; [reflexivity|].
  rewrite (H x Hx), IH. reflexivity.
Qed.

(** ** Construction *)

Lemma array_d_Ok_iff (items : list value) (cs : list float) :
  array_d (map Ok items) = Ok cs
  <-> Forall2 (fun x c => to_double x = Ok c) items cs.
Proof.
  revert cs. induction items as [|x items IH]; intros cs; cbn [map array_d bind].
  - split; [intros H; injection H as <-; constructor
           | intros H; inversion H; reflexivity].
  - destruct (to_double x) as [c|e] eqn:Hx; cbn [bind].
    + destruct (array_d (map Ok items)) as [cs'|e] eqn:Ha; cbn [bind].
      * split.
        -- intros H. injection H as <-.
           constructor; [exact Hx | apply IH; reflexivity].
        -- intros H. inversion H as [|? c0 ? cs0 Hc Hrest]; subst.
           apply IH in Hrest. congruence.
      * split; [discriminate|].
        intros H. inversion H as [|? c0 ? cs0 Hc Hrest]; subst.
        apply IH in Hrest. discriminate.
    + split; [discriminate|].
      intros H. inversion H; subst. congruence.
Qed.

Lemma array_d_length (items : list (result value)) (cs : list float) :
  array_d items = Ok cs -> List.length cs = List.length items.
Proof.
  revert cs. induction items as [|it items IH]; intros cs; cbn [array_d].
  - intros H. injection H as <-. reflexivity.
  - destruct it as [x|e]; cbn [bind]; [|discriminate].
    destruct (to_double x) as [c|e]; cbn [bind]; [|discriminate].
    destruct (array_d items) as [cs'|e]; cbn [bind]; [|discriminate].
    intros H. injection H as <-. cbn [List.length].
    rewrite (IH cs' eq_refl). reflexivity.
Qed.

Lemma Vector_init_dim (items : list (result value)) (v : Vector) :
  Vector_init items = Ok v ->
  dim v = Z.of_nat (List.length items) /\ _norm v = None.
Proof.
  unfold Vector_init.
  destruct (array_d items) as [cs|e] eqn:Ha; cbn [bind]; [|discriminate].
  intros H. injection H as <-. split; [|reflexivity].
  unfold dim. cbn [components _components].
  rewrite (array_d_length items cs Ha). reflexivity.
Qed.

(** An item the array of doubles takes: a float as it is, an int within
    the range of a double as the nearest double. *)
Definition converts (x : value) (c : float) : Prop :=
  x = VFloat c
  \/ (exists z, x = VInt z /\ c = F64.of_Z z
                /\ F64.is_inf (F64.of_Z z) = false).

(** An item that is no real number: [None], text, a complex, a list. *)
Definition not_real (x : value) : Prop :=
  x = VNone \/ (exists t, x = VStr t)
  \/ (exists re im, x = VComplex re im) \/ (exists l, x = VList l).

Lemma converts_to_double (x : value) (c : float) :
  converts x c -> to_double x = Ok c.
Proof.
  intros [->|[z [-> [-> Hz]]]]; [reflexivity|].
  unfold to_double. rewrite Hz. reflexivity.
Qed.

Lemma array_d_stops (pre : list value) (cs : list float) (x : value)
      (post : list value) (e : exn) :
  Forall2 converts pre cs -> to_double x = Raise e ->
  array_d (map Ok (pre ++ x :: post)) = Raise e.
Proof.
  intros H Hx. induction H as [|y c pre cs Hy _ IH].
  - cbn [app map array_d bind]. rewrite Hx. reflexivity.
  - cbn [app map array_d bind]. rewrite (converts_to_double y c Hy).
    cbn [bind]. cbn [map] in IH. rewrite IH. reflexivity.
Qed.

(** X1: [Vector(items)] on a list of floats and of ints within the range
    of a double returns a Vector of as many components, each float taken
    as it is and each int rounded to the nearest double, with an empty
    norm cache.  The items are converted in order and the first one that
    does not convert ends the construction: with [TypeError] when it is
    [None], text, a complex or a list, with [OverflowError] when it is an
    int beyond the range of a double. *)
Theorem Vector_init_spec :
  forall items : list value,
    (forall cs, Forall2 converts items cs ->
                Vector_init (map Ok items) = Ok (vec cs)
                /\ dim (vec cs) = Z.of_nat (List.length items))
    /\ (forall pre cs x post,
           items = pre ++ x :: post -> Forall2 converts pre cs ->
           (not_real x -> Vector_init (map Ok items) = Raise TypeError)
           /\ (forall z, x = VInt z -> F64.is_inf (F64.of_Z z) = true ->
                         Vector_init (map Ok items) = Raise OverflowError)).
Proof.
  intros items. split.
  - intros cs H.
    assert (Ha : array_d (map Ok items) = Ok cs).
    { apply array_d_Ok_iff. eapply Forall2_impl; [|exact H].
      intros x c. apply converts_to_double. }
    unfold Vector_init. rewrite Ha. split; [reflexivity|].
    unfold dim. cbn [components _components vec].
    rewrite (Forall2_length H). reflexivity.
  - intros pre cs x post -> Hpre. unfold Vector_init. split.
    + intros Hx. rewrite (array_d_stops pre cs x post TypeError Hpre);
        [reflexivity|].
      destruct Hx as [->|[[t ->]|[[re [im ->]]|[l ->]]]]; reflexivity.
    + intros z -> Hz.
      rewrite (array_d_stops pre cs (VInt z) post OverflowError Hpre);
        [reflexivity|].
      unfold to_double. rewrite Hz. reflexivity.
Qed.

Lemma Vector_init_spec_witness :
  Vector_init (map Ok [VInt 3; VFloat (fl 4)]) = Ok (vec [fl 3; fl 4])
  /\ Vector_init (map Ok [VInt 3; VNone; VInt 4]) = Raise TypeError.
Proof.
  split.
  - apply (proj1 (Vector_init_spec [VInt 3; VFloat (fl 4)]) [fl 3; fl 4]).
    constructor; [right; exists 3; repeat split; reflexivity|].
    constructor; [left; reflexivity | constructor].
  - apply (proj1 (proj2 (Vector_init_spec [VInt 3; VNone; VInt 4])
                    [VInt 3] [fl 3] VNone [VInt 4] eq_refl
                    (Forall2_cons _ _ (or_intror (ex_intro _ 3
                       (conj eq_refl (conj eq_refl eq_refl))))
                       (Forall2_nil _)))).
    left. reflexivity.
Defined.

Lemma make_zero_unfold (n : Z) :
  make_zero n = Ok (vec (repeat F64.zero (Z.to_nat n))).
Proof.
  unfold make_zero, Vector_init.
  induction (Z.to_nat n) as [|k IH]; [reflexivity|].
  cbn [repeat array_d bind to_double].
  destruct (array_d (repeat (Ok (VInt 0)) k)) as [cs|e]; [|discriminate].
  cbn [bind] in *. injection IH as ->. reflexivity.
Qed.

Lemma make_zero_like (v : Vector) : make_zero (dim v) = Ok (zeros_like v).
Proof.
  rewrite make_zero_unfold. unfold dim, zeros_like. rewrite Nat2Z.id. reflexivity.
Qed.

Lemma fsum_loop_zeros (xs : list float) :
  Forall (fun x => is_zero x = true) xs ->
  fsum_loop fsum_init xs = Ok fsum_init.
Proof.
  intros H. induction H as [|x xs Hx _ IH]; [reflexivity|].
  destruct x; try discriminate. cbn [fsum_loop].
  change (fsum_add fsum_init (S754_zero s)) with (Ok fsum_init).
  exact IH.
Qed.

Lemma math_fsum_zeros (xs : list float) :
  Forall (fun x => is_zero x = true) xs -> math_fsum xs = Ok F64.zero.
Proof.
  intros H. unfold math_fsum. rewrite (fsum_loop_zeros xs H). reflexivity.
Qed.

Lemma norm_of_zeros (cs : list float) :
  Forall (fun c => is_zero c = true) cs ->
  norm (vec cs) = Ok (F64.zero, mkVector cs (Some F64.zero)).
Proof.
  intros H. unfold norm. cbn [_norm vec]. rewrite dot_self, math_fsum_zeros.
  - reflexivity.
  - cbn [components _components]. apply Forall_map.
    eapply Forall_impl; [|exact H].
    intros c Hc. destruct c; try discriminate. reflexivity.
Qed.

Lemma repeat_zero_zeros (k : nat) :
  Forall (fun c => is_zero c = true) (repeat F64.zero k).
Proof.
  apply Forall_forall. intros x Hx. apply repeat_spec in Hx. subst. reflexivity.
Qed.

(** X2: [make_zero(n)] returns the empty Vector for an [n] that is zero
    or negative (within the width of an index), and for the dimension of
    any Vector a Vector of that dimension whose components are all [0.0]:
    its norm is [0.0], so that building a unit vector from it fails with
    [ZeroDivisionError]. *)
Theorem make_zero_spec :
  (forall n : Z, - 2 ^ 31 <= n <= 0 -> make_zero n = Ok (vec []))
  /\ (forall v : Vector,
         exists z,
           make_zero (dim v) = Ok z
           /\ dim z = dim v
           /\ Forall (fun c => c = F64.zero) (components z)
           /\ (r <- norm z ;; Ok (fst r)) = Ok F64.zero
           /\ build_unit_vector z = Raise ZeroDivisionError).
Proof.
  split.
  - intros n Hn. rewrite make_zero_unfold.
    replace (Z.to_nat n) with 0%nat by lia. reflexivity.
  - intros v. exists (zeros_like v).
    split; [apply make_zero_like|]. unfold zeros_like. split.
    + unfold dim. cbn [components _components vec]. rewrite repeat_length.
      reflexivity.
    + split.
      * cbn [components _components vec]. apply Forall_forall.
        intros c Hc. apply repeat_spec in Hc. exact Hc.
      * unfold build_unit_vector.
        rewrite (norm_of_zeros _ (repeat_zero_zeros _)).
        split; reflexivity.
Qed.

Lemma make_zero_spec_witness : make_zero (-1) = Ok (vec []).
Proof.
  apply (proj1 make_zero_spec). split; [discriminate | discriminate].
Defined.

(** X3: [make_unitary] on components that all convert to a zero, the
    empty sequence among them, fails with [ZeroDivisionError]. *)
Theorem make_unitary_zero :
  forall items : list value,
    Forall (fun x => exists c, to_double x = Ok c /\ is_zero c = true) items ->
    make_unitary items = Raise ZeroDivisionError.
Proof.
  intros items H.
  assert (Hcs : exists cs, array_d (map Ok items) = Ok cs
                           /\ Forall (fun c => is_zero c = true) cs).
  { induction H as [|x items [c [Hc Hz]] _ [cs [Ha Hf]]].
    - exists []. split; [reflexivity | constructor].
    - exists (c :: cs). cbn [map array_d bind]. rewrite Hc. cbn [bind].
      rewrite Ha. split; [reflexivity | constructor; assumption]. }
  destruct Hcs as [cs [Ha Hf]].
  unfold make_unitary, Vector_init. rewrite Ha. cbn [bind].
  unfold build_unit_vector. change (mkVector cs None) with (vec cs).
  rewrite (norm_of_zeros cs Hf). reflexivity.
Qed.

Lemma make_unitary_zero_witness :
  make_unitary [VInt 0; VFloat (S754_zero true)] = Raise ZeroDivisionError
  /\ make_unitary [] = Raise ZeroDivisionError.
Proof.
  split; apply make_unitary_zero.
  - constructor; [exists F64.zero; split; reflexivity|].
    constructor; [exists (S754_zero true); split; reflexivity|]. constructor.
  - constructor.
Defined.

(** ** Arithmetic *)

Lemma sums_comm (xs ys : list float) : sums xs ys = sums ys xs.
Proof.
  revert ys. induction xs as [|x xs IH]; intros [|y ys]; try reflexivity.
  change (sums (x :: xs) (y :: ys)) with (F64.add x y :: sums xs ys).
  change (sums (y :: ys) (x :: xs)) with (F64.add y x :: sums ys xs).
  rewrite fadd_comm, IH. reflexivity.
Qed.

Lemma add_swap (v1 v2 : Vector) : add v1 v2 = add v2 v1.
Proof.
  destruct (Z.eq_dec (dim v1) (dim v2)) as [H|H].
  - rewrite (add_equal_dim v1 v2 H), (add_equal_dim v2 v1 (eq_sym H)), sums_comm.
    reflexivity.
  - rewrite (add_dim_mismatch v1 v2 H), (add_dim_mismatch v2 v1); [reflexivity|].
    congruence.
Qed.

Lemma Forall2_same_double (cs : list float) : Forall2 same_double cs cs.
Proof.
  induction cs as [|c cs IH]; constructor; [apply same_double_refl | exact IH].
Qed.

(** X4: [add] is commutative: [add(v1, v2)] and [add(v2, v1)] both raise
    the dimension error, or both return a Vector, of the same dimension,
    and at every place the two components are both NaN or the same double
    bit for bit. *)
Theorem add_commutative :
  forall v1 v2 : Vector,
    match add v1 v2, add v2 v1 with
    | Ok u, Ok w =>
        dim u = dim w /\ Forall2 same_double (components u) (components w)
    | Raise e1, Raise e2 => e1 = ValueError /\ e2 = ValueError
    | _, _ => False
    end.
Proof.
  intros v1 v2. rewrite <- (add_swap v1 v2).
  destruct (Z.eq_dec (dim v1) (dim v2)) as [H|H].
  - rewrite (add_equal_dim v1 v2 H).
    split; [reflexivity | apply Forall2_same_double].
  - rewrite (add_dim_mismatch v1 v2 H). split; reflexivity.
Qed.

Lemma dim_zeros_like (v : Vector) : dim (zeros_like v) = dim v.
Proof.
  unfold dim, zeros_like. cbn [components _components vec].
  rewrite repeat_length. reflexivity.
Qed.

Lemma sums_zeros (cs : list float) :
  sums cs (repeat F64.zero (List.length cs))
  = map (fun c => if is_zero c then F64.zero else c) cs.
Proof.
  induction cs as [|c cs IH]; [reflexivity|].
  change (sums (c :: cs) (repeat F64.zero (List.length (c :: cs))))
    with (F64.add c F64.zero :: sums cs (repeat F64.zero (List.length cs))).
  rewrite IH, fadd_zero. reflexivity.
Qed.

(** X5: adding the zero vector of the same dimension gives the
    components back unchanged, infinities and NaN included, except that a
    negative zero becomes [0.0]. *)
Theorem add_zero_vector :
  forall v : Vector,
    add v (zeros_like v)
    = Ok (vec (map (fun c => if is_zero c then F64.zero else c) (components v)))
    /\ add (zeros_like v) v = add v (zeros_like v).
Proof.
  intros v. split; [|apply add_swap].
  rewrite (add_equal_dim v (zeros_like v) (eq_sym (dim_zeros_like v))).
  unfold zeros_like at 1. cbn [components _components vec].
  rewrite sums_zeros. reflexivity.
Qed.

Lemma scale_minus_one (v : Vector) :
  scale v (VInt (-1)) = Ok (vec (map (F64.mul minus_one) (components v))).
Proof. apply scale_real. reflexivity. Qed.

Lemma neg_components (v : Vector) :
  valid_vector v ->
  Vector___neg__ v = Ok (vec (map SFopp (components v))).
Proof.
  intros Hv. unfold Vector___neg__, Vector___rmul__. rewrite scale_minus_one.
  rewrite (map_ext_Forall (fun c => valid c = true) (F64.mul minus_one) SFopp
             _ mul_minus_one Hv). reflexivity.
Qed.

(** X6: on well-formed doubles the unary minus is exact: [-v] has every
    component of [v] with its sign flipped (NaN stays NaN), and [-(-v)] has
    the components of [v] again. *)
Theorem neg_exact :
  forall v : Vector,
    valid_vector v ->
    Vector___neg__ v = Ok (vec (map SFopp (components v)))
    /\ (u <- Vector___neg__ v ;; Vector___neg__ u) = Ok (vec (components v)).
Proof.
  intros v Hv. rewrite (neg_components v Hv). split; [reflexivity|].
  cbn [bind]. rewrite neg_components.
  - cbn [components _components vec]. rewrite map_map.
    rewrite (map_ext _ (fun c => c) opp_involutive), map_id. reflexivity.
  - unfold valid_vector in *. cbn [components _components vec].
    apply Forall_map. eapply Forall_impl; [|exact Hv].
    intros c Hc. cbv beta. rewrite valid_opp. exact Hc.
Qed.

Lemma neg_exact_witness :
  Vector___neg__ (vec [fl 3; fl (-4)]) = Ok (vec [fl (-3); fl 4]).
Proof.
  assert (H : valid_vector (vec [fl 3; fl (-4)])) by (repeat constructor).
  rewrite (proj1 (neg_exact (vec [fl 3; fl (-4)]) H)). reflexivity.
Defined.

(** X7: on well-formed doubles, scaling by the int [1] or the float [1.0]
    returns the components unchanged. *)
Theorem scale_one_identity :
  forall v : Vector,
    valid_vector v ->
    scale v (VInt 1) = Ok (vec (components v))
    /\ scale v (VFloat one) = Ok (vec (components v)).
Proof.
  intros v Hv.
  assert (H : map (F64.mul one) (components v) = components v).
  { rewrite (map_ext_Forall (fun c => valid c = true) (F64.mul one) (fun c => c)
               _ mul_one Hv). apply map_id. }
  split.
  - rewrite (scale_real v (VInt 1) one eq_refl), H. reflexivity.
  - rewrite (scale_real v (VFloat one) one eq_refl), H. reflexivity.
Qed.

Lemma scale_one_identity_witness :
  scale (vec [fl 3; fl 4]) (VInt 1) = Ok (vec [fl 3; fl 4]).
Proof.
  assert (H : valid_vector (vec [fl 3; fl 4])) by (repeat constructor).
  exact (proj1 (scale_one_identity (vec [fl 3; fl 4]) H)).
Defined.

(** The components of [subtract]: [c1 + (-1.0 * c2)]. *)
Definition differences (xs ys : list float) : list float :=
  map (fun '(c1, c2) => F64.add c1 (F64.mul minus_one c2)) (zip xs ys).

Lemma sums_map_r (f : float -> float) (xs ys : list float) :
  sums xs (map f ys) = map (fun '(c1, c2) => F64.add c1 (f c2)) (zip xs ys).
Proof.
  revert ys. induction xs as [|x xs IH]; intros [|y ys]; try reflexivity.
  unfold sums in *. simpl. rewrite IH. reflexivity.
Qed.

Lemma subtract_unfold (v1 v2 : Vector) :
  subtract v1 v2 =
  if dim v1 =? dim v2
  then Ok (vec (differences (components v1) (components v2)))
  else Raise ValueError.
Proof.
  unfold subtract. rewrite scale_minus_one. cbn [bind].
  assert (Hd : dim (vec (map (F64.mul minus_one) (components v2))) = dim v2)
    by (unfold dim; cbn [components _components vec];
        rewrite length_map; reflexivity).
  destruct (Z.eqb_spec (dim v1) (dim v2)) as [Heq|Hne].
  - rewrite add_equal_dim by congruence.
    cbn [components _components vec]. rewrite sums_map_r. reflexivity.
  - apply add_dim_mismatch. congruence.
Qed.

(** X8: [subtract(v1, v2)] returns the Vector of the components
    [c1 + (-1.0 * c2)] when the dimensions agree and raises the dimension
    error exactly when they differ; scaling by [-1] never fails.  The
    operator [v1 - v2] has the same outcome in every case. *)
Theorem subtract_spec :
  forall v1 v2 : Vector,
    (dim v1 = dim v2 ->
     subtract v1 v2 = Ok (vec (differences (components v1) (components v2))))
    /\ (dim v1 <> dim v2 <-> subtract v1 v2 = Raise ValueError)
    /\ (forall e, subtract v1 v2 = Raise e -> e = ValueError)
    /\ Vector___sub__ v1 v2 = subtract v1 v2.
Proof.
  intros v1 v2.
  assert (Hsub : Vector___sub__ v1 v2 = subtract v1 v2) by reflexivity.
  rewrite Hsub, subtract_unfold.
  destruct (Z.eqb_spec (dim v1) (dim v2)) as [H|H]; repeat split;
    try congruence; try contradiction.
Qed.

Lemma subtract_spec_witness :
  subtract (vec [fl 5; fl 7]) (vec [fl 2; fl 3]) = Ok (vec [fl 3; fl 4])
  /\ subtract (vec [fl 5; fl 7]) (vec [fl 2]) = Raise ValueError.
Proof.
  split.
  - rewrite (proj1 (subtract_spec (vec [fl 5; fl 7]) (vec [fl 2; fl 3])) eq_refl).
    reflexivity.
  - apply (proj1 (proj2 (subtract_spec (vec [fl 5; fl 7]) (vec [fl 2])))).
    discriminate.
Defined.

Lemma differences_self (cs : list float) :
  Forall (fun c => valid c = true) cs ->
  Forall (fun c => F64.is_finite c = true) cs ->
  differences cs cs = repeat F64.zero (List.length cs).
Proof.
  intros Hv Hf. induction cs as [|c cs IH]; [reflexivity|].
  inversion Hv; inversion Hf; subst.
  change (differences (c :: cs) (c :: cs))
    with (F64.add c (F64.mul minus_one c) :: differences cs cs).
  rewrite IH by assumption.
  rewrite mul_minus_one, add_opp by assumption. reflexivity.
Qed.

(** X9: for a Vector of well-formed finite doubles, [subtract(v, v)] and
    [v - v] are exactly the zero vector that [make_zero(v.dim)] returns:
    every component is [0.0], with no rounding error. *)
Theorem subtract_self :
  forall v : Vector,
    valid_vector v -> finite_vector v ->
    subtract v v = Ok (zeros_like v)
    /\ Vector___sub__ v v = Ok (zeros_like v)
    /\ make_zero (dim v) = Ok (zeros_like v).
Proof.
  intros v Hv Hf.
  assert (H : subtract v v = Ok (zeros_like v)).
  { rewrite subtract_unfold, Z.eqb_refl, (differences_self _ Hv Hf). reflexivity. }
  split; [exact H|]. split; [rewrite <- H; reflexivity | apply make_zero_like].
Qed.

Lemma subtract_self_witness :
  subtract (vec [fl 3; fl 4]) (vec [fl 3; fl 4]) = Ok (vec [F64.zero; F64.zero]).
Proof.
  assert (Hv : valid_vector (vec [fl 3; fl 4])) by (repeat constructor).
  assert (Hf : finite_vector (vec [fl 3; fl 4])) by (repeat constructor).
  exact (proj1 (subtract_self (vec [fl 3; fl 4]) Hv Hf)).
Defined.

Lemma norm_keeps_components (v : Vector) (n : float) (v' : Vector) :
  norm v = Ok (n, v') -> components v' = components v.
Proof.
  unfold norm. destruct (_norm v).
  - intros H. injection H as _ <-. reflexivity.
  - destruct (dot v v) as [d|e]; cbn [bind]; [|discriminate].
    destruct (math_sqrt d) as [r|e]; cbn [bind]; [|discriminate].
    intros H. injection H as _ <-. reflexivity.
Qed.

(** X10: whatever [scale], [add], [subtract], the unary minus and
    [build_unit_vector] return is a new Vector of the dimension of the
    operands, with an empty norm cache. *)
Theorem results_keep_dim :
  forall (v w u : Vector) (k : value),
    (scale v k = Ok u -> dim u = dim v /\ _norm u = None)
    /\ (add v w = Ok u -> dim u = dim v /\ dim u = dim w /\ _norm u = None)
    /\ (subtract v w = Ok u -> dim u = dim v /\ dim u = dim w /\ _norm u = None)
    /\ (Vector___neg__ v = Ok u -> dim u = dim v /\ _norm u = None)
    /\ (build_unit_vector v = Ok u -> dim u = dim v /\ _norm u = None).
Proof.
  intros v w u k.
  assert (Hscale : forall (a b : Vector) (x : value),
             scale a x = Ok b -> dim b = dim a /\ _norm b = None).
  { intros a b x. unfold scale.
    destruct (negb (isinstance_Number x)); [discriminate|].
    intros H. apply Vector_init_dim in H. rewrite length_map in H. exact H. }
  assert (Hadd : forall a b c : Vector,
             add a b = Ok c -> dim c = dim a /\ dim c = dim b /\ _norm c = None).
  { intros a b c. unfold add.
    destruct (Z.eqb_spec (dim a) (dim b)) as [E|E]; cbn [negb]; [|discriminate].
    intros H. apply Vector_init_dim in H. destruct H as [H1 H2].
    unfold zip in H1. rewrite length_map, length_combine in H1.
    unfold dim in *. repeat split; try assumption; lia. }
  split; [apply Hscale|]. split; [apply Hadd|]. split; [|split].
  - unfold subtract.
    destruct (scale w (VInt (-1))) as [s|e] eqn:Hs; cbn [bind]; [|discriminate].
    intros H. apply Hadd in H. apply Hscale in Hs.
    destruct H as [H1 [H2 H3]], Hs as [Hs _].
    repeat split; congruence.
  - apply Hscale.
  - unfold build_unit_vector.
    destruct (norm v) as [[n v']|e] eqn:Hn; cbn [bind]; [|discriminate].
    destruct (truediv one n) as [q|e]; cbn [bind]; [|discriminate].
    intros H. apply Hscale in H. apply norm_keeps_components in Hn.
    unfold dim in *. rewrite Hn in H. exact H.
Qed.

Lemma results_keep_dim_witness :
  dim (vec [fl 6; fl 8]) = dim (vec [fl 3; fl 4])
  /\ _norm (vec [fl 6; fl 8]) = None.
Proof.
  apply (proj1 (results_keep_dim (vec [fl 3; fl 4]) (vec [fl 3; fl 4])
                  (vec [fl 6; fl 8]) (VInt 2))).
  reflexivity.
Defined.

(** ** Dot product, norm and angle *)

Lemma fsum_add_raises (st : fsum_state) (x : float) (e : exn) :
  fsum_add st x = Raise e -> e = OverflowError.
Proof.
  unfold fsum_add. destruct (fsum_partials x (partials st)) as [ps top].
  destruct (negb (F64.eqb top F64.zero)); [|discriminate].
  destruct (negb (F64.is_finite top)); [|discriminate].
  destruct (F64.is_finite x); [congruence | discriminate].
Qed.

Lemma fsum_loop_raises (xs : list float) (st : fsum_state) (e : exn) :
  fsum_loop st xs = Raise e -> e = OverflowError.
Proof.
  revert st. induction xs as [|x xs IH]; intros st; [discriminate|].
  cbn [fsum_loop]. destruct (fsum_add st x) as [st'|e'] eqn:Ha; cbn [bind].
  - apply IH.
  - intros H. injection H as <-. eapply fsum_add_raises; eassumption.
Qed.

Lemma math_fsum_raises (xs : list float) (e : exn) :
  math_fsum xs = Raise e -> e = OverflowError \/ e = ValueError.
Proof.
  unfold math_fsum.
  destruct (fsum_loop fsum_init xs) as [st|e'] eqn:Hl; cbn [bind].
  - destruct (negb (F64.eqb (special_sum st) F64.zero)); [|discriminate].
    destruct (F64.is_nan (inf_sum st)); [|discriminate].
    intros H. right. congruence.
  - intros H. injection H as <-. left. eapply fsum_loop_raises; eassumption.
Qed.

(** X11: [dot] on two Vectors raises [ValueError] whenever the dimensions
    differ, and apart from that can only fail inside the summation: with
    [OverflowError] (an intermediate sum out of range) or [ValueError]
    (infinities of both signs among the products).  An [OverflowError]
    therefore tells that the dimensions were equal. *)
Theorem dot_errors :
  forall v1 v2 : Vector,
    (dim v1 <> dim v2 -> dot v1 v2 = Raise ValueError)
    /\ (forall e, dot v1 v2 = Raise e -> e = ValueError \/ e = OverflowError)
    /\ (dot v1 v2 = Raise OverflowError -> dim v1 = dim v2).
Proof.
  intros v1 v2. rewrite dot_vectors.
  destruct (Z.eqb_spec (dim v1) (dim v2)) as [H|H]; repeat split;
    try congruence.
  - intros e He. apply math_fsum_raises in He. tauto.
  - intros e He. injection He as <-. left. reflexivity.
Qed.

Lemma dot_errors_witness :
  dot (vec [fl 1; fl 2]) (vec [fl 1; fl 2; fl 3]) = Raise ValueError.
Proof.
  apply (proj1 (dot_errors (vec [fl 1; fl 2]) (vec [fl 1; fl 2; fl 3]))).
  discriminate.
Defined.

Lemma products_zeros_r (cs : list float) :
  Forall (fun c => F64.is_finite c = true) cs ->
  Forall (fun x => is_zero x = true)
         (products cs (repeat F64.zero (List.length cs))).
Proof.
  intros H. induction H as [|c cs Hc _ IH]; [constructor|].
  change (products (c :: cs) (repeat F64.zero (List.length (c :: cs))))
    with (F64.mul c F64.zero :: products cs (repeat F64.zero (List.length cs))).
  constructor; [|exact IH].
  destruct c as [s|s| |s m e]; try discriminate; reflexivity.
Qed.

Lemma dot_with_zeros (v : Vector) :
  finite_vector v -> dot v (zeros_like v) = Ok F64.zero.
Proof.
  intros H. rewrite dot_vectors, dim_zeros_like, Z.eqb_refl.
  unfold zeros_like. cbn [components _components vec].
  apply math_fsum_zeros, products_zeros_r. exact H.
Qed.

(** X12: the dot product of a Vector of finite components with the zero
    vector of its dimension is exactly [0.0], in either order. *)
Theorem dot_zero_vector :
  forall v : Vector,
    finite_vector v ->
    dot v (zeros_like v) = Ok F64.zero
    /\ dot (zeros_like v) v = Ok F64.zero.
Proof.
  intros v H. split; [|rewrite dot_comm]; apply dot_with_zeros; exact H.
Qed.

Lemma dot_zero_vector_witness :
  dot (vec [fl 3; fl 4]) (vec [F64.zero; F64.zero]) = Ok F64.zero.
Proof.
  assert (Hf : finite_vector (vec [fl 3; fl 4])) by (repeat constructor).
  exact (proj1 (dot_zero_vector (vec [fl 3; fl 4]) Hf)).
Defined.

Lemma squares_opp (cs : list float) :
  map (fun c => F64.mul c c) (map SFopp cs) = map (fun c => F64.mul c c) cs.
Proof.
  rewrite map_map. apply map_ext. intros c. apply mul_opp_opp.
Qed.

(** X13: on well-formed doubles the norm of [-v] is the norm of [v], bit
    for bit, errors included. *)
Theorem norm_neg :
  forall v : Vector,
    valid_vector v -> cache_valid v ->
    exists u, Vector___neg__ v = Ok u
              /\ (r <- norm u ;; Ok (fst r)) = (r <- norm v ;; Ok (fst r)).
Proof.
  intros v Hv Hc. exists (vec (map SFopp (components v))).
  split; [apply neg_components; exact Hv|].
  rewrite (norm_value v Hc), (norm_value (vec (map SFopp (components v))) I).
  rewrite !dot_self. cbn [components _components vec].
  rewrite squares_opp. reflexivity.
Qed.

Lemma norm_neg_witness :
  exists u, Vector___neg__ (vec [fl 3; fl 4]) = Ok u
            /\ (r <- norm u ;; Ok (fst r)) = Ok (fl 5).
Proof.
  assert (Hv : valid_vector (vec [fl 3; fl 4])) by (repeat constructor).
  destruct (norm_neg (vec [fl 3; fl 4]) Hv I) as [u [Hu Hn]].
  exists u. split; [exact Hu|]. rewrite Hn. vm_compute. reflexivity.
Defined.

(** X14: a read of [norm] leaves the components as they are, so no later
    operation on the instance can tell that the cache was filled: [dot],
    [add], [scale], indexing and equality give on the instance after the
    read what they gave before. *)
Theorem norm_read_transparent :
  forall (v : Vector) (n : float) (v' : Vector),
    norm v = Ok (n, v') ->
    components v' = components v
    /\ forall (w : Vector) (o k : value) (i nd : Z),
         dot v' o = dot v o
         /\ dot w v' = dot w v
         /\ add v' w = add v w
         /\ add w v' = add w v
         /\ scale v' k = scale v k
         /\ Vector___getitem__ v' i = Vector___getitem__ v i
         /\ almost_equal v' o nd = almost_equal v o nd
         /\ almost_equal w v' nd = almost_equal w v nd.
Proof.
  intros v n v' H. apply norm_keeps_components in H. split; [exact H|].
  intros w o k i nd.
  destruct v as [cs c], v' as [cs' c']. cbn [components _components] in H.
  subst cs'. repeat split.
Qed.

Lemma norm_read_transparent_witness :
  dot (mkVector [fl 3; fl 4] (Some (fl 5))) (vec [fl 1; fl 1])
  = dot (vec [fl 3; fl 4]) (vec [fl 1; fl 1]).
Proof.
  assert (H : norm (vec [fl 3; fl 4])
              = Ok (fl 5, mkVector [fl 3; fl 4] (Some (fl 5))))
    by (vm_compute; reflexivity).
  exact (proj1 (proj2 (norm_read_transparent _ _ _ H)
                  (vec [fl 1; fl 1]) (vec [fl 1; fl 1]) VNone 0 0)).
Defined.

(** [math.acos]: the arc cosine of the C library is taken as a function
    [acos] on doubles; a NaN result from a non-NaN argument is a domain
    error. *)
Definition math_acos (acos : float -> float) (x : float) : result float :=
  let r := acos x in
  if F64.is_nan r && negb (F64.is_nan x) then Raise ValueError
  else if F64.is_inf r && F64.is_finite x then Raise ValueError
  else Ok r.

(** [angle_between]: the dot product is evaluated first, then the two
    norms, their product and the quotient. *)
Definition angle_between (acos : float -> float) (v1 v2 : Vector)
  : result float :=
  d <- dot v1 v2 ;;
  '(n1, _) <- norm v1 ;;
  '(n2, _) <- norm v2 ;;
  q <- truediv d (F64.mul n1 n2) ;;
  math_acos acos q.

(** X15: [angle_between] raises the dimension error of [dot] when the
    dimensions differ, before any norm is read.  Between a Vector of
    finite components and finite norm and the zero vector of its
    dimension it raises [ZeroDivisionError], in either order. *)
Theorem angle_between_errors :
  forall (acos : float -> float) (v1 v2 : Vector),
    (dim v1 <> dim v2 -> angle_between acos v1 v2 = Raise ValueError)
    /\ (forall n v', finite_vector v1 ->
          norm v1 = Ok (n, v') -> F64.is_finite n = true ->
          angle_between acos v1 (zeros_like v1) = Raise ZeroDivisionError
          /\ angle_between acos (zeros_like v1) v1 = Raise ZeroDivisionError).
Proof.
  intros acos v1 v2. split.
  - intros H. unfold angle_between. rewrite dot_vectors.
    destruct (Z.eqb_spec (dim v1) (dim v2)); [contradiction | reflexivity].
  - intros n v' Hf Hn Hfin.
    destruct (mul_finite_zero n Hfin) as [M1 M2].
    assert (Hz : norm (zeros_like v1)
                 = Ok (F64.zero, mkVector (components (zeros_like v1)) (Some F64.zero)))
      by (apply norm_of_zeros, repeat_zero_zeros).
    unfold angle_between. split.
    + rewrite (dot_with_zeros v1 Hf). cbn [bind]. rewrite Hn. cbn [bind].
      rewrite Hz. cbn [bind]. unfold truediv. rewrite M1. reflexivity.
    + rewrite <- dot_comm, (dot_with_zeros v1 Hf). cbn [bind].
      rewrite Hz. cbn [bind]. rewrite Hn. cbn [bind].
      unfold truediv. rewrite M2. reflexivity.
Qed.

Lemma angle_between_errors_witness :
  angle_between (fun x => x) (vec [fl 3; fl 4]) (vec [F64.zero; F64.zero])
  = Raise ZeroDivisionError
  /\ angle_between (fun x => x) (vec [fl 3; fl 4]) (vec [fl 1]) = Raise ValueError.
Proof.
  assert (Hf : finite_vector (vec [fl 3; fl 4])) by (repeat constructor).
  assert (Hn : norm (vec [fl 3; fl 4])
               = Ok (fl 5, mkVector [fl 3; fl 4] (Some (fl 5))))
    by (vm_compute; reflexivity).
  split.
  - exact (proj1 (proj2 (angle_between_errors (fun x => x) (vec [fl 3; fl 4])
                           (vec [fl 3; fl 4])) _ _ Hf Hn eq_refl)).
  - apply (proj1 (angle_between_errors (fun x => x) (vec [fl 3; fl 4]) (vec [fl 1]))).
    discriminate.
Defined.

(** ** Indexing from the end *)

(** X16: for every position [i] within the dimension, [v[i]] and
    [v[i - dim]] return the same component, the one at place [i]. *)
Theorem getitem_from_end :
  forall (v : Vector) (i : Z),
    0 <= i < dim v ->
    exists c, nth_error (components v) (Z.to_nat i) = Some c
              /\ Vector___getitem__ v i = Ok c
              /\ Vector___getitem__ v (i - dim v) = Ok c.
Proof.
  intros v i H.
  destruct (nth_error_in_range (components v) i H) as [c Hc].
  exists c. split; [exact Hc|].
  unfold Vector___getitem__; cbv zeta. split.
  - destruct (Z.ltb_spec i 0); [lia|].
    destruct (Z.ltb_spec i 0); [lia|].
    destruct (Z.leb_spec (dim v) i); [lia|].
    cbn [orb]. rewrite Hc. reflexivity.
  - destruct (Z.ltb_spec (i - dim v) 0); [|lia].
    replace (i - dim v + dim v) with i by lia.
    destruct (Z.ltb_spec i 0); [lia|].
    destruct (Z.leb_spec (dim v) i); [lia|].
    cbn [orb]. rewrite Hc. reflexivity.
Qed.

Lemma getitem_from_end_witness :
  Vector___getitem__ (vec [fl 3; fl 4]) 1 = Ok (fl 4)
  /\ Vector___getitem__ (vec [fl 3; fl 4]) (1 - 2) = Ok (fl 4).
Proof.
  assert (H : 0 <= 1 < dim (vec [fl 3; fl 4]))
    by (split; [discriminate | reflexivity]).
  destruct (getitem_from_end (vec [fl 3; fl 4]) 1 H) as [c [Hc [H1 H2]]].
  injection Hc as <-. split; [exact H1 | exact H2].
Defined.

(** ** Equality is symmetric and transitive *)

Lemma all_rounded_equal_sym (nd : Z) (xs ys : list float) :
  all_rounded_equal nd (zip xs (map VFloat ys))
  = all_rounded_equal nd (zip ys (map VFloat xs)).
Proof.
  revert ys. induction xs as [|x xs IH]; intros [|y ys]; try reflexivity.
  cbn [map zip combine all_rounded_equal py_round].
  destruct (float_round x nd) as [a|e1] eqn:Hx,
           (float_round y nd) as [b|e2] eqn:Hy;
    cbn [bind num_eq]; try reflexivity.
  - rewrite (feqb_sym a b). destruct (F64.eqb b a); [apply IH | reflexivity].
  - apply float_round_raises in Hx, Hy. congruence.
Qed.

(** X17: equality of two Vectors is symmetric at every precision:
    [almost_equal(v1, v2)] and [almost_equal(v2, v1)] have the same
    outcome, and so have [v1 == v2] and [v2 == v1]. *)
Theorem almost_equal_symmetric :
  (forall (nd : Z) (v1 v2 : Vector),
      almost_equal v1 v2 nd = almost_equal v2 v1 nd)
  /\ (forall (E : Env) (v1 v2 : Vector),
         Vector___eq__ v1 v2 = Vector___eq__ v2 v1).
Proof.
  assert (H : forall (nd : Z) (v1 v2 : Vector),
             almost_equal v1 v2 nd = almost_equal v2 v1 nd).
  { intros nd v1 v2. rewrite !almost_equal_unfold.
    rewrite all_rounded_equal_sym, (Z.eqb_sym (dim v1)). reflexivity. }
  split; [exact H | intros E v1 v2; apply H].
Qed.

Lemma almost_equal_true_iff (nd : Z) (v1 v2 : Vector) :
  almost_equal v1 v2 nd = Ok true <->
  dim v1 = dim v2
  /\ Forall2 (rounded_equal nd) (components v1) (components v2).
Proof.
  rewrite almost_equal_unfold. split.
  - intros H.
    destruct (all_rounded_equal _ _) as [close|e] eqn:Hc; [|discriminate].
    simpl in H. injection H as H. apply andb_prop in H as [-> Hd].
    apply Z.eqb_eq in Hd. split; [exact Hd|].
    apply Forall_zip_floats; [unfold dim in Hd; lia|].
    apply all_rounded_equal_true. exact Hc.
  - intros [Hd HF].
    apply Forall_zip_floats in HF; [|unfold dim in Hd; lia].
    apply all_rounded_equal_true in HF. rewrite HF. simpl.
    rewrite Hd, Z.eqb_refl. reflexivity.
Qed.

Lemma rounded_equal_trans (nd : Z) (a b c : float) :
  rounded_equal nd a b -> rounded_equal nd b c -> rounded_equal nd a c.
Proof.
  intros [r1 [r2 [H1 [H2 H]]]] [s2 [r3 [K2 [K3 K]]]].
  assert (s2 = r2) by congruence. subst.
  exists r1, r3. repeat split; try assumption. eapply feqb_trans; eassumption.
Qed.

Lemma Forall2_trans {A} (R : A -> A -> Prop) :
  (forall a b c, R a b -> R b c -> R a c) ->
  forall xs ys zs, Forall2 R xs ys -> Forall2 R ys zs -> Forall2 R xs zs.
Proof.
  intros HR xs ys zs H. revert zs.
  induction H as [|x y xs ys Hxy _ IH]; intros zs Hz; inversion Hz; subst;
    constructor; eauto.
Qed.

(** X18: equality of Vectors is transitive at every precision: rounding
    each component and comparing the rounded values, unlike a test of
    distance, carries from [v1 == v2] and [v2 == v3] to [v1 == v3]. *)
Theorem almost_equal_transitive :
  forall (nd : Z) (v1 v2 v3 : Vector),
    almost_equal v1 v2 nd = Ok true ->
    almost_equal v2 v3 nd = Ok true ->
    almost_equal v1 v3 nd = Ok true.
Proof.
  intros nd v1 v2 v3. rewrite !almost_equal_true_iff.
  intros [D1 F1] [D2 F2]. split; [congruence|].
  eapply Forall2_trans; [apply rounded_equal_trans | eassumption | eassumption].
Qed.

Lemma almost_equal_transitive_witness :
  almost_equal (vec [fl 1]) (vec [F64.of_ratio false 100000002 100000000]) 7
  = Ok true.
Proof.
  apply (almost_equal_transitive 7 (vec [fl 1])
           (vec [F64.of_ratio false 100000001 100000000])
           (vec [F64.of_ratio false 100000002 100000000]));
    vm_compute; reflexivity.
Defined.
